(** * interactive_dashboard.py: the ranking-accuracy dashboard

    A shallow embedding of the Streamlit script [interactive_dashboard.py]:
    the cached CSV loader [load_data], the three sidebar sliders, the
    validation of the pair count against [comb(items_value, 2)], the row
    filter, and the per-algorithm Plotly traces.

    One run of the script is a function of what the file system holds and
    of the values the three sliders hand back; what the script shows is the
    list of page elements it emits, in order.  [st.stop()] and uncaught
    Python exceptions end a run early. *)

From Stdlib Require Import ZArith List String Bool Lia.
From Stdlib Require Import Sorted Permutation DecimalString.
From Stdlib Require Import Floats.
Import ListNotations.

Set Warnings "-inexact-float".
Local Open Scope string_scope.
Local Open Scope list_scope.
Local Open Scope Z_scope.

(* ================================================================== *)
(** ** Python built-ins the script calls *)

Module Py.

(** Exceptions a run can die of. *)
Inductive exn : Type :=
| ValueError            (* math.comb on a negative, astype on a bad cell *)
| OtherReadError        (* read_csv failing other than FileNotFoundError *)
| StreamlitAPIException.

(** A Python call either returns or raises. *)
Inductive result (A : Type) : Type :=
| Return (a : A)
| Raises (e : exn).
Arguments Return {A} a.
Arguments Raises {A} e.

Fixpoint factorial (n : nat) : Z :=
  match n with
  | O => 1
  | S k => Z.of_nat n * factorial k
  end.

(** [math.comb(n, k)], after the library's documentation: it "evaluates to
    n! / (k! * (n - k)!) when k <= n and evaluates to zero when k > n", and
    "raises ValueError if either of the arguments are negative". *)
Definition comb (n k : Z) : result Z :=
  if (n <? 0) || (k <? 0) then Raises ValueError
  else if n <? k then Return 0
  else Return (factorial (Z.to_nat n)
               / (factorial (Z.to_nat k) * factorial (Z.to_nat (n - k)))).

(** [str(i)] of an int: its decimal numeral, with a leading minus sign. *)
Definition str (i : Z) : string := NilZero.string_of_int (Z.to_int i).

(** An f-string, as the literal pieces and the interpolated values it is
    made of.  The decimal text of an interpolated float ([repr]) is not
    modelled: the value itself is kept. *)
Inductive piece : Type :=
| Lit (s : string)
| FmtInt (i : Z)
| FmtStr (s : string)
| FmtFloat (f : float).

Definition fstring : Type := list piece.

(** The text of an f-string that interpolates no float. *)
Fixpoint format (t : fstring) : option string :=
  match t with
  | [] => Some ""
  | Lit s :: rest | FmtStr s :: rest => option_map (append s) (format rest)
  | FmtInt i :: rest => option_map (append (str i)) (format rest)
  | FmtFloat _ :: _ => None
  end.

End Py.

(* ================================================================== *)
(** ** Binary64 arithmetic used by pandas/numpy *)

Module Np.

Definition two52 : float := 4503599627370496%float.

(** [numpy.rint]: round to the nearest integer, ties to even.  Below 2^52
    in magnitude, adding and removing 2^52 rounds to an integer (a zero
    result may differ from numpy's in sign, which [==] does not see);
    from 2^52 on, and for the infinities and NaN, a double is its own
    rounding. *)
Definition rint (v : float) : float :=
  if PrimFloat.ltb (PrimFloat.abs v) two52 then
    if PrimFloat.leb 0 v
    then PrimFloat.sub (PrimFloat.add v two52) two52
    else PrimFloat.add (PrimFloat.sub v two52) two52
  else v.

(** [Series.round(2)] on a float64 column is [numpy.round(_, 2)]:
    scale by 10**2, [rint], scale back. *)
Definition round2 (v : float) : float :=
  PrimFloat.div (rint (PrimFloat.mul v 100)) 100.

Definition is_nan (v : float) : bool := negb (PrimFloat.eqb v v).

Definition is_finite (v : float) : bool :=
  PrimFloat.ltb (PrimFloat.abs v) infinity.

(** The double nearest to an integer (int64 -> float64 cast). *)
Definition float_of_Z (i : Z) : float :=
  SF2Prim (binary_normalize prec emax i 0 false).

(** A finite double cut to its integer part, toward zero
    (float64 -> int64 cast; magnitudes beyond int64 are outside the model). *)
Definition trunc (v : float) : Z :=
  match Prim2SF v with
  | S754_finite s m e =>
      let magnitude := Z.shiftl (Z.pos m) e in
      if s then - magnitude else magnitude
  | _ => 0
  end.

End Np.

(* ================================================================== *)
(** ** Frames: what [pd.read_csv] returns and what [load_data] makes of it *)

Module Pd.

(** A cell as [read_csv] parses it: an integer, a double (a missing entry
    reads as NaN), or text. *)
Inductive cell : Type :=
| CInt (i : Z)
| CFloat (f : float)
| CStr (s : string).

(** The parsed file: its header and, row by row, one cell per header name. *)
Record RawFrame : Type := {
  columns : list string;
  records : list (list cell)
}.

(** [df[col]] at one record: the cell under the first header named [col]
    (NaN where the record is short). *)
Fixpoint at_column (cols : list string) (rec : list cell) (col : string) : cell :=
  match cols, rec with
  | c :: cols', v :: rec' => if String.eqb c col then v else at_column cols' rec' col
  | _, _ => CFloat nan
  end.

(** [.astype(float)] on one cell; text does not convert. *)
Definition astype_float (c : cell) : Py.result float :=
  match c with
  | CInt i => Py.Return (Np.float_of_Z i)
  | CFloat f => Py.Return f
  | CStr _ => Py.Raises Py.ValueError
  end.

(** [.astype(int)] on one cell; NaN, the infinities and text do not convert. *)
Definition astype_int (c : cell) : Py.result Z :=
  match c with
  | CInt i => Py.Return i
  | CFloat f => if Np.is_finite f then Py.Return (Np.trunc f) else Py.Raises Py.ValueError
  | CStr _ => Py.Raises Py.ValueError
  end.

(** [a == b] on two cells of a column.  A column holds cells of one kind
    (plus NaN for missing text), so an int is never compared to a double
    here; NaN equals nothing. *)
Definition cell_eqb (a b : cell) : bool :=
  match a, b with
  | CInt i, CInt j => i =? j
  | CFloat f, CFloat g => PrimFloat.eqb f g
  | CStr s, CStr t => String.eqb s t
  | _, _ => false
  end.

(** The key [Series.unique()] hashes on: as [==], but all NaN are one key. *)
Definition same_key (a b : cell) : bool :=
  match a, b with
  | CFloat f, CFloat g => PrimFloat.eqb f g || (Np.is_nan f && Np.is_nan g)
  | _, _ => cell_eqb a b
  end.

(** [Series.unique()]: the distinct values, in order of first appearance. *)
Fixpoint unique (l : list cell) : list cell :=
  match l with
  | [] => []
  | a :: rest => a :: filter (fun b => negb (same_key a b)) (unique rest)
  end.

(** [Series.min()] / [Series.max()] of an int column; an empty column has
    none (pandas answers NaN). *)
Definition min_int (l : list Z) : option Z :=
  match l with
  | [] => None
  | a :: rest => Some (fold_left Z.min rest a)
  end.

Definition max_int (l : list Z) : option Z :=
  match l with
  | [] => None
  | a :: rest => Some (fold_left Z.max rest a)
  end.

(** [Series.min()] / [Series.max()] of a float column: NaN entries are
    skipped; NaN when nothing is left. *)
Definition min_float (l : list float) : float :=
  fold_left (fun acc v =>
               if Np.is_nan v then acc
               else if Np.is_nan acc then v
               else if PrimFloat.ltb v acc then v else acc) l nan.

Definition max_float (l : list float) : float :=
  fold_left (fun acc v =>
               if Np.is_nan v then acc
               else if Np.is_nan acc then v
               else if PrimFloat.ltb acc v then v else acc) l nan.

End Pd.

(* ================================================================== *)
(** ** The loaded dataset *)

(** One row of the frame [load_data] returns.  Only the six columns the
    script names are kept; the file's other columns are carried along by
    pandas untouched and never read. *)
Record Row : Type := {
  Noise_Level : float;
  Num_Items : Z;
  Num_Pairs : Z;
  Algorithm : Pd.cell;
  Top_n : Z;
  Accuracy : float
}.

Definition DataFrame : Type := list Row.

(* ================================================================== *)
(** ** Plotly figures *)

Module Go.

(** [go.Scatter(x=, y=, mode=, name=, line=dict(color=, width=),
    marker=dict(size=))]. *)
Record Scatter : Type := {
  x : list Z;
  y : list float;
  mode : string;
  name : Pd.cell;
  line_color : string;
  line_width : Z;
  marker_size : Z
}.

Record Layout : Type := {
  title : Py.fstring;
  xaxis_title : string;
  yaxis_title : string;
  hovermode : string;
  template : string;
  legend_title : string;
  width : Z;
  height : Z
}.

Record Figure : Type := {
  data : list Scatter;
  layout : option Layout
}.

(** [go.Figure()]. *)
Definition empty_figure : Figure := {| data := []; layout := None |}.

Definition add_trace (fig : Figure) (t : Scatter) : Figure :=
  {| data := data fig ++ [t]; layout := layout fig |}.

Definition update_layout (fig : Figure) (l : Layout) : Figure :=
  {| data := data fig; layout := Some l |}.

(** [plotly.colors.qualitative.Dark24], a constant of the plotting
    library: twenty-four hex colours. *)
Definition Dark24 : list string :=
  [ "#2E91E5"; "#E15F99"; "#1CA71C"; "#FB0D0D"; "#DA16FF"; "#222A2A";
    "#B68100"; "#750D86"; "#EB663B"; "#511CFB"; "#00A08B"; "#FB00D1";
    "#FC0080"; "#B2828D"; "#6C7C32"; "#778AAE"; "#862A16"; "#A777F1";
    "#620042"; "#1616A7"; "#DA60CA"; "#6C4516"; "#0D2A63"; "#AF0038" ].

End Go.

(* ================================================================== *)
(** ** Streamlit: page elements and the script monad *)

Module St.

(** What a run puts on the page. *)
Inductive element : Type :=
| title (body : string)
| error (body : Py.fstring)
| warning (body : string)
| sidebar_header (body : string)
| sidebar_slider_float (label : string) (min_value max_value value step : float)
| sidebar_slider_int (label : string) (min_value max_value value step : Z)
| sidebar_error (body : Py.fstring)
| sidebar_markdown (body : Py.fstring)
| plotly_chart (fig : Go.Figure)
| expander_write (label : string) (shown : DataFrame).

(** How a step of the script ends: it goes on with a value, it calls
    [st.stop()], or an exception escapes. *)
Inductive status (A : Type) : Type :=
| Done (a : A)
| Stopped
| Died (e : Py.exn).
Arguments Done {A} a.
Arguments Stopped {A}.
Arguments Died {A} e.

(** A piece of script: from the page so far to how it ends and the page then. *)
Definition Script (A : Type) : Type := list element -> status A * list element.

Definition ret {A} (a : A) : Script A := fun page => (Done a, page).

Definition bind {A B} (m : Script A) (k : A -> Script B) : Script B :=
  fun page =>
    match m page with
    | (Done a, page') => k a page'
    | (Stopped, page') => (Stopped, page')
    | (Died e, page') => (Died e, page')
    end.

Definition emit (e : element) : Script unit := fun page => (Done tt, page ++ [e]).

(** [st.stop()]. *)
Definition stop {A} : Script A := fun page => (Stopped, page).

Definition raise {A} (e : Py.exn) : Script A := fun page => (Died e, page).

(** A Python call made by the script: its exception, if any, is not caught. *)
Definition call {A} (r : Py.result A) : Script A :=
  match r with
  | Py.Return a => ret a
  | Py.Raises e => raise e
  end.

(** [for a in l: body(a)]. *)
Fixpoint for_each {A} (l : list A) (body : A -> Script unit) : Script unit :=
  match l with
  | [] => ret tt
  | a :: rest => bind (body a) (fun _ => for_each rest body)
  end.

(** [st.sidebar.slider] over floats.  The widget hands back the value it
    currently holds, [held]. *)
Definition slider_float (label : string) (min_value max_value value step held : float)
  : Script float :=
  bind (emit (sidebar_slider_float label min_value max_value value step))
       (fun _ => ret held).

(** [st.sidebar.slider] over ints.  A bound that is NaN (the minimum or
    maximum of an empty column) is a float among int arguments, which the
    widget rejects. *)
Definition slider_int (label : string) (min_value max_value value : option Z)
  (step held : Z) : Script Z :=
  match min_value, max_value, value with
  | Some lo, Some hi, Some v =>
      bind (emit (sidebar_slider_int label lo hi v step)) (fun _ => ret held)
  | _, _, _ => raise Py.StreamlitAPIException
  end.

End St.

Notation "x <- m ;; k" := (St.bind m (fun x => k))
  (at level 61, m at next level, right associativity).
Notation "m ;; k" := (St.bind m (fun _ => k))
  (at level 61, right associativity).

(* ================================================================== *)
(** ** The script *)

(** What [pd.read_csv] finds at the path the script names. *)
Inductive csv_file : Type :=
| Missing                      (* FileNotFoundError *)
| Unreadable                   (* any other failure of read_csv *)
| Holds (raw : Pd.RawFrame).

(** The values the three sidebar sliders hold during a run. *)
Record Sliders : Type := {
  noise_held : float;
  items_held : Z;
  pairs_held : Z
}.

Definition expected_columns : list string :=
  ["Noise Level"; "Num_Items"; "Num_Pairs"; "Algorithm"; "Top-n"; "Accuracy"].

(** [col in df.columns]. *)
Definition has_column (raw : Pd.RawFrame) (col : string) : bool :=
  existsb (String.eqb col) (Pd.columns raw).

(** Lines 34-38 at one record: the five [astype] conversions and the
    rounding of the noise level.  pandas converts column by column; every
    failure is a ValueError, so which cell fails first does not show. *)
Definition convert_record (cols : list string) (rec : list Pd.cell) : Py.result Row :=
  match Pd.astype_float (Pd.at_column cols rec "Noise Level"),
        Pd.astype_int (Pd.at_column cols rec "Num_Items"),
        Pd.astype_int (Pd.at_column cols rec "Num_Pairs"),
        Pd.astype_int (Pd.at_column cols rec "Top-n"),
        Pd.astype_float (Pd.at_column cols rec "Accuracy") with
  | Py.Return noise, Py.Return items, Py.Return pairs, Py.Return top, Py.Return acc =>
      Py.Return {| Noise_Level := Np.round2 noise;
                   Num_Items := items;
                   Num_Pairs := pairs;
                   Algorithm := Pd.at_column cols rec "Algorithm";
                   Top_n := top;
                   Accuracy := acc |}
  | _, _, _, _, _ => Py.Raises Py.ValueError
  end.

Fixpoint convert_records (cols : list string) (recs : list (list Pd.cell))
  : Py.result DataFrame :=
  match recs with
  | [] => Py.Return []
  | rec :: rest =>
      match convert_record cols rec, convert_records cols rest with
      | Py.Return r, Py.Return df => Py.Return (r :: df)
      | _, _ => Py.Raises Py.ValueError
      end
  end.

Definition file_not_found_message : Py.fstring :=
  [Py.Lit "The file 'ranking_results_avg.csv' was not found in the current directory."].

Definition missing_column_message (col : string) : Py.fstring :=
  [Py.Lit "Missing expected column: '"; Py.FmtStr col; Py.Lit "' in the CSV file."].

(** [load_data()].  [@st.cache_data] keeps the frame of the first run for
    the later ones; a single run is modelled. *)
Definition load_data (file : csv_file) : St.Script DataFrame :=
  df <- match file with
        | Holds raw => St.ret raw
        | Missing => St.emit (St.error file_not_found_message) ;; St.stop
        | Unreadable => St.raise Py.OtherReadError
        end ;;
  St.for_each expected_columns (fun col =>
    if negb (has_column df col)
    then St.emit (St.error (missing_column_message col)) ;; St.stop
    else St.ret tt) ;;
  St.call (convert_records (Pd.columns df) (Pd.records df)).

(** [min(a, b)] where [a] may be NaN: Python answers its first argument
    unless the second is smaller, and nothing is smaller than NaN. *)
Definition py_min (a : option Z) (b : Z) : option Z :=
  option_map (fun a' => Z.min a' b) a.

(** Lines 95-99: the boolean mask on the three selected values. *)
Definition filtered_df0 (df : DataFrame) (noise_value : float) (items_value pairs_value : Z)
  : DataFrame :=
  filter (fun r => PrimFloat.eqb (Noise_Level r) noise_value
                   && (Num_Items r =? items_value)
                   && (Num_Pairs r =? pairs_value)) df.

(** Line 107, on top of lines 95-99: the frame the chart and the table show. *)
Definition filtered_df (df : DataFrame) (noise_value : float) (items_value pairs_value : Z)
  : DataFrame :=
  filter (fun r => Top_n r <=? items_value)
         (filtered_df0 df noise_value items_value pairs_value).

(** [Series.sort_values] on ['Top-n'], ascending.  pandas leaves the order
    of rows with equal keys open; here they keep their order. *)
Fixpoint insert_Top_n (r : Row) (l : DataFrame) : DataFrame :=
  match l with
  | [] => [r]
  | h :: t => if Top_n r <=? Top_n h then r :: l else h :: insert_Top_n r t
  end.

Fixpoint sort_values_Top_n (l : DataFrame) : DataFrame :=
  match l with
  | [] => []
  | h :: t => insert_Top_n h (sort_values_Top_n t)
  end.

(** Line 110. *)
Definition algorithms (fdf : DataFrame) : list Pd.cell :=
  Pd.unique (map Algorithm fdf).

(** [enumerate(l)]. *)
Definition enumerate {A} (l : list A) : list (nat * A) :=
  combine (seq 0 (List.length l)) l.

(** [colors[idx % len(colors)]] (the palette is never empty). *)
Definition color_at (colors : list string) (idx : nat) : string :=
  nth (idx mod List.length colors) colors "".

(** Line 121. *)
Definition alg_data (fdf : DataFrame) (alg : Pd.cell) : DataFrame :=
  sort_values_Top_n (filter (fun r => Pd.cell_eqb (Algorithm r) alg) fdf).

(** Lines 122-129: the trace of one algorithm. *)
Definition trace (colors : list string) (fdf : DataFrame) (idx : nat) (alg : Pd.cell)
  : Go.Scatter :=
  {| Go.x := map Top_n (alg_data fdf alg);
     Go.y := map Accuracy (alg_data fdf alg);
     Go.mode := "lines+markers";
     Go.name := alg;
     Go.line_color := color_at colors idx;
     Go.line_width := 2;
     Go.marker_size := 8 |}.

(** Lines 113-141: the figure of a filtered frame. *)
Definition figure (fdf : DataFrame) (noise_value : float) (items_value pairs_value : Z)
  : Go.Figure :=
  let fig := Go.empty_figure in
  let colors := Go.Dark24 in
  let fig := fold_left (fun fig '(idx, alg) => Go.add_trace fig (trace colors fdf idx alg))
                       (enumerate (algorithms fdf)) fig in
  Go.update_layout fig
    {| Go.title := [Py.Lit "📈 Top-n Accuracy at Noise Level "; Py.FmtFloat noise_value;
                    Py.Lit ", Num_Items "; Py.FmtInt items_value;
                    Py.Lit ", Num_Pairs "; Py.FmtInt pairs_value];
       Go.xaxis_title := "Top-n Candidates";
       Go.yaxis_title := "Accuracy";
       Go.hovermode := "closest";
       Go.template := "plotly_white";
       Go.legend_title := "Algorithms";
       Go.width := 900;
       Go.height := 600 |}.

Definition invalid_pairs_message (items_value max_possible_pairs : Z) : Py.fstring :=
  [Py.Lit "Number of Pairs cannot exceed C("; Py.FmtInt items_value;
   Py.Lit ", 2) = "; Py.FmtInt max_possible_pairs; Py.Lit "."].

Definition no_data_message : string :=
  "⚠️ No data available for the selected parameters.".

(** Lines 44-154: everything after [df = load_data()]. *)
Definition dashboard (df : DataFrame) (s : Sliders) : St.Script unit :=
  St.emit (St.sidebar_header "🔧 Filter Parameters") ;;
  let noise_min := Pd.min_float (map Noise_Level df) in
  let noise_max := Pd.max_float (map Noise_Level df) in
  let noise_step := 0.01%float in
  noise_value <- St.slider_float "📊 Select Noise Level:"
                   noise_min noise_max noise_min noise_step (noise_held s) ;;
  let items_min := Pd.min_int (map Num_Items df) in
  let items_max := Pd.max_int (map Num_Items df) in
  let items_step := 100 in
  items_value <- St.slider_int "📈 Select Number of Items:"
                   items_min items_max items_min items_step (items_held s) ;;
  max_possible_pairs <- St.call (Py.comb items_value 2) ;;
  let pairs_min := Pd.min_int (map Num_Pairs df) in
  let pairs_max := Pd.max_int (map Num_Pairs df) in
  let pairs_step := 100 in
  pairs_value <- St.slider_int "🔢 Select Number of Pairs:"
                   pairs_min (py_min pairs_max max_possible_pairs) pairs_min
                   pairs_step (pairs_held s) ;;
  (if pairs_value >? max_possible_pairs
   then St.emit (St.sidebar_error (invalid_pairs_message items_value max_possible_pairs)) ;;
        St.stop
   else St.ret tt) ;;
  let filtered_df0 := filtered_df0 df noise_value items_value pairs_value in
  (match filtered_df0 with
   | [] => St.emit (St.warning no_data_message) ;; St.stop
   | _ :: _ => St.ret tt
   end) ;;
  let filtered_df := filtered_df df noise_value items_value pairs_value in
  let fig := figure filtered_df noise_value items_value pairs_value in
  St.emit (St.plotly_chart fig) ;;
  St.emit (St.sidebar_markdown [Py.Lit "---"]) ;;
  St.emit (St.sidebar_markdown [Py.Lit "**📊 Selected Noise Level:** "; Py.FmtFloat noise_value]) ;;
  St.emit (St.sidebar_markdown [Py.Lit "**📈 Selected Number of Items:** "; Py.FmtInt items_value]) ;;
  St.emit (St.sidebar_markdown [Py.Lit "**🔢 Selected Number of Pairs:** "; Py.FmtInt pairs_value]) ;;
  St.emit (St.expander_write "📄 Show Data" filtered_df).

Definition page_title : string := "🔍 Ranking Algorithms Performance Dashboard".

(** The whole script, lines 9-154.  [st.set_page_config] puts nothing on
    the page; the title is up before [load_data] is called. *)
Definition script (file : csv_file) (s : Sliders) : St.Script unit :=
  St.emit (St.title page_title) ;;
  df <- load_data file ;;
  dashboard df s.

(** One run, from an empty page. *)
Definition run (file : csv_file) (s : Sliders) : St.status unit * list St.element :=
  script file s [].

(* ================================================================== *)
(** ** Vocabulary of the statements *)



(** The sidebar as far as the item slider. *)
Definition controls (df : DataFrame) (items_min items_max : Z) : list St.element :=
  [ St.sidebar_header "🔧 Filter Parameters";
    St.sidebar_slider_float "📊 Select Noise Level:"
      (Pd.min_float (map Noise_Level df)) (Pd.max_float (map Noise_Level df))
      (Pd.min_float (map Noise_Level df)) 0.01%float;
    St.sidebar_slider_int "📈 Select Number of Items:" items_min items_max items_min 100 ].

Definition pairs_label : string := "🔢 Select Number of Pairs:".

(** The chart, the echo of the selection and the table of a full render. *)
Definition rendering (df : DataFrame) (s : Sliders) : list St.element :=
  let shown := filtered_df df (noise_held s) (items_held s) (pairs_held s) in
  [ St.plotly_chart (figure shown (noise_held s) (items_held s) (pairs_held s));
    St.sidebar_markdown [Py.Lit "---"];
    St.sidebar_markdown [Py.Lit "**📊 Selected Noise Level:** "; Py.FmtFloat (noise_held s)];
    St.sidebar_markdown [Py.Lit "**📈 Selected Number of Items:** "; Py.FmtInt (items_held s)];
    St.sidebar_markdown [Py.Lit "**🔢 Selected Number of Pairs:** "; Py.FmtInt (pairs_held s)];
    St.expander_write "📄 Show Data" shown ].

(** The three ways a cycle ends once the sliders are up. *)
Definition after_sliders (df : DataFrame) (s : Sliders) (max_possible_pairs : Z)
  : St.status unit * list St.element :=
  if pairs_held s >? max_possible_pairs
  then (St.Stopped,
        [St.sidebar_error (invalid_pairs_message (items_held s) max_possible_pairs)])
  else match filtered_df0 df (noise_held s) (items_held s) (pairs_held s) with
       | [] => (St.Stopped, [St.warning no_data_message])
       | _ :: _ => (St.Done tt, rendering df s)
       end.

(** The file holds [raw], and [load_data] makes the frame [df] of it. *)
Definition loads (raw : Pd.RawFrame) (df : DataFrame) : Prop :=
  fst (load_data (Holds raw) []) = St.Done df.

(** The first expected column the header lacks, if any. *)
Definition first_missing (raw : Pd.RawFrame) : option string :=
  find (fun col => negb (has_column raw col)) expected_columns.

(** An error or warning box. *)
Definition is_alert (e : St.element) : bool :=
  match e with
  | St.error _ | St.sidebar_error _ | St.warning _ => true
  | _ => false
  end.

(** The chart or the table. *)
Definition is_result (e : St.element) : bool :=
  match e with
  | St.plotly_chart _ | St.expander_write _ _ => true
  | _ => false
  end.



(** A label that is text or an integer, hence not NaN. *)
Definition plain_label (c : Pd.cell) : bool :=
  match c with
  | Pd.CFloat _ => false
  | _ => true
  end.

(** The row carries the three values the sliders hold (the mask of lines
    95-99). *)
Definition selected (s : Sliders) (r : Row) : Prop :=
  PrimFloat.eqb (Noise_Level r) (noise_held s) = true
  /\ Num_Items r = items_held s
  /\ Num_Pairs r = pairs_held s.

(** The number of points a figure plots. *)
Definition points (fig : Go.Figure) : nat :=
  list_sum (map (fun t => List.length (Go.x t)) (Go.data fig)).

(* ================================================================== *)
(** ** Sample files, frames and slider settings *)

(** The three measurements of the spec's worked example (two for "A", one
    for "B", the larger Top-n first), as a file and as the frame loaded
    from it, and the selection that picks them. *)
Definition three_rows_file : Pd.RawFrame :=
  {| Pd.columns := expected_columns;
     Pd.records :=
       [ [Pd.CFloat 0.1; Pd.CInt 500; Pd.CInt 1000; Pd.CStr "A"; Pd.CInt 10; Pd.CFloat 0.9];
         [Pd.CFloat 0.1; Pd.CInt 500; Pd.CInt 1000; Pd.CStr "A"; Pd.CInt 5; Pd.CFloat 0.8];
         [Pd.CFloat 0.1; Pd.CInt 500; Pd.CInt 1000; Pd.CStr "B"; Pd.CInt 5; Pd.CFloat 0.7] ] |}.

Definition three_rows : DataFrame :=
  [ {| Noise_Level := 0.1; Num_Items := 500; Num_Pairs := 1000;
       Algorithm := Pd.CStr "A"; Top_n := 10; Accuracy := 0.9 |};
    {| Noise_Level := 0.1; Num_Items := 500; Num_Pairs := 1000;
       Algorithm := Pd.CStr "A"; Top_n := 5; Accuracy := 0.8 |};
    {| Noise_Level := 0.1; Num_Items := 500; Num_Pairs := 1000;
       Algorithm := Pd.CStr "B"; Top_n := 5; Accuracy := 0.7 |} ].

Definition spec_example : Sliders :=
  {| noise_held := 0.1; items_held := 500; pairs_held := 1000 |}.


(** Same two algorithms in the same order, other measurements. *)
Definition other_rows_file : Pd.RawFrame :=
  {| Pd.columns := expected_columns;
     Pd.records :=
       [ [Pd.CFloat 0.2; Pd.CInt 300; Pd.CInt 700; Pd.CStr "A"; Pd.CInt 7; Pd.CFloat 0.4];
         [Pd.CFloat 0.2; Pd.CInt 300; Pd.CInt 700; Pd.CStr "B"; Pd.CInt 3; Pd.CFloat 0.6] ] |}.

Definition other_rows : DataFrame :=
  [ {| Noise_Level := 0.2; Num_Items := 300; Num_Pairs := 700;
       Algorithm := Pd.CStr "A"; Top_n := 7; Accuracy := 0.4 |};
    {| Noise_Level := 0.2; Num_Items := 300; Num_Pairs := 700;
       Algorithm := Pd.CStr "B"; Top_n := 3; Accuracy := 0.6 |} ].


(** A file with no Accuracy column. *)
Definition frame_without_accuracy : Pd.RawFrame :=
  {| Pd.columns := ["Noise Level"; "Num_Items"; "Num_Pairs"; "Algorithm"; "Top-n"];
     Pd.records := [[Pd.CFloat 0.1; Pd.CInt 500; Pd.CInt 1000; Pd.CStr "A"; Pd.CInt 5]] |}.

(** A file of two measurements, the first with Top-n above Num_Items,
    and the sliders at their defaults (the three column minima). *)
Definition top_n_above_items : Pd.RawFrame :=
  {| Pd.columns := expected_columns;
     Pd.records :=
       [ [Pd.CFloat 0.1; Pd.CInt 500; Pd.CInt 1000; Pd.CStr "A"; Pd.CInt 600; Pd.CFloat 0.5];
         [Pd.CFloat 0.2; Pd.CInt 600; Pd.CInt 1100; Pd.CStr "A"; Pd.CInt 5; Pd.CFloat 0.7] ] |}.

Definition at_defaults : Sliders :=
  {| noise_held := 0.1; items_held := 500; pairs_held := 1000 |}.

(** A file where the clamp binds: at 4 items, C(4,2) = 6 is below the
    largest pair count of the column. *)
Definition clamped_file : Pd.RawFrame :=
  {| Pd.columns := expected_columns;
     Pd.records :=
       [ [Pd.CFloat 0.1; Pd.CInt 4; Pd.CInt 3; Pd.CStr "A"; Pd.CInt 2; Pd.CFloat 0.5];
         [Pd.CFloat 0.2; Pd.CInt 5; Pd.CInt 10; Pd.CStr "B"; Pd.CInt 3; Pd.CFloat 0.6] ] |}.

Definition clamped_rows : DataFrame :=
  [ {| Noise_Level := 0.1; Num_Items := 4; Num_Pairs := 3;
       Algorithm := Pd.CStr "A"; Top_n := 2; Accuracy := 0.5 |};
    {| Noise_Level := 0.2; Num_Items := 5; Num_Pairs := 10;
       Algorithm := Pd.CStr "B"; Top_n := 3; Accuracy := 0.6 |} ].

Definition four_items : Sliders :=
  {| noise_held := 0.1; items_held := 4; pairs_held := 3 |}.

Definition five_items : Sliders :=
  {| noise_held := 0.1; items_held := 5; pairs_held := 3 |}.


(** A file with neither Num_Pairs nor Accuracy. *)
Definition frame_without_pairs_and_accuracy : Pd.RawFrame :=
  {| Pd.columns := ["Noise Level"; "Num_Items"; "Algorithm"; "Top-n"];
     Pd.records := [[Pd.CFloat 0.1; Pd.CInt 500; Pd.CStr "A"; Pd.CInt 5]] |}.

(** A file with text where an item count should be, and one with a
    missing pair count. *)
Definition text_in_items : Pd.RawFrame :=
  {| Pd.columns := expected_columns;
     Pd.records :=
       [ [Pd.CFloat 0.1; Pd.CInt 500; Pd.CInt 1000; Pd.CStr "A"; Pd.CInt 5; Pd.CFloat 0.8];
         [Pd.CFloat 0.1; Pd.CStr "many"; Pd.CInt 1000; Pd.CStr "A"; Pd.CInt 5; Pd.CFloat 0.6] ] |}.





Definition no_such_noise : Sliders :=
  {| noise_held := 0.3; items_held := 500; pairs_held := 1000 |}.

(** A file with a missing noise level and a missing algorithm label. *)
Definition gaps_file : Pd.RawFrame :=
  {| Pd.columns := expected_columns;
     Pd.records :=
       [ [Pd.CFloat nan; Pd.CInt 500; Pd.CInt 1000; Pd.CStr "A"; Pd.CInt 5; Pd.CFloat 0.8];
         [Pd.CFloat 0.1; Pd.CInt 500; Pd.CInt 1000; Pd.CFloat nan; Pd.CInt 5; Pd.CFloat 0.6];
         [Pd.CFloat 0.1; Pd.CInt 500; Pd.CInt 1000; Pd.CStr "B"; Pd.CInt 7; Pd.CFloat 0.4] ] |}.

Definition gaps_rows : DataFrame :=
  [ {| Noise_Level := nan; Num_Items := 500; Num_Pairs := 1000;
       Algorithm := Pd.CStr "A"; Top_n := 5; Accuracy := 0.8 |};
    {| Noise_Level := 0.1; Num_Items := 500; Num_Pairs := 1000;
       Algorithm := Pd.CFloat nan; Top_n := 5; Accuracy := 0.6 |};
    {| Noise_Level := 0.1; Num_Items := 500; Num_Pairs := 1000;
       Algorithm := Pd.CStr "B"; Top_n := 7; Accuracy := 0.4 |} ].

(* ================================================================== *)
(** * Properties *)

(** ** The pair-count bound *)

Section Comb.

Lemma factorial_succ (k : nat) :
  Py.factorial (S k) = Z.of_nat (S k) * Py.factorial k.
Proof. reflexivity. Qed.

Lemma factorial_pos (k : nat) : 0 < Py.factorial k.
Proof.
  induction k as [|k IH].
  - reflexivity.
  - rewrite factorial_succ. apply Z.mul_pos_pos; [lia | exact IH].
Qed.

(** From 2 on, [n!] starts with [n * (n - 1)]. *)
Lemma factorial_two_steps (n : Z) :
  2 <= n ->
  Py.factorial (Z.to_nat n) = n * (n - 1) * Py.factorial (Z.to_nat (n - 2)).
Proof.
  intros Hn.
  replace (Z.to_nat n) with (S (S (Z.to_nat (n - 2)))) by lia.
  rewrite !factorial_succ.
  replace (Z.of_nat (S (S (Z.to_nat (n - 2))))) with n by lia.
  replace (Z.of_nat (S (Z.to_nat (n - 2)))) with (n - 1) by lia.
  ring.
Qed.

(** [comb(n, 2)] in closed form, wherever it is defined. *)
Lemma comb_2 (n : Z) : 0 <= n -> Py.comb n 2 = Py.Return (n * (n - 1) / 2).
Proof.
  intros Hn. unfold Py.comb.
  replace (n <? 0) with false by (symmetry; apply Z.ltb_ge; exact Hn).
  cbn [orb Z.ltb Z.compare].
  destruct (Z.ltb_spec n 2) as [Hlt | Hge].
  - assert (Hcases : n = 0 \/ n = 1) by lia.
    destruct Hcases as [-> | ->]; reflexivity.
  - f_equal.
    rewrite (factorial_two_steps n Hge).
    change (Py.factorial (Z.to_nat 2)) with 2.
    apply Z.div_mul_cancel_r; [lia | ].
    pose proof (factorial_pos (Z.to_nat (n - 2))). lia.
Qed.


End Comb.

(** ** Column minima and maxima *)

Section Extremes.





Lemma min_int_some (l : list Z) : l <> [] -> exists m, Pd.min_int l = Some m.
Proof. destruct l; [congruence | cbn; eauto]. Qed.

Lemma max_int_some (l : list Z) : l <> [] -> exists m, Pd.max_int l = Some m.
Proof. destruct l; [congruence | cbn; eauto]. Qed.

Lemma column_nonempty {A} (f : Row -> A) (df : DataFrame) : df <> [] -> map f df <> [].
Proof. destruct df; [congruence | discriminate]. Qed.

End Extremes.

(** ** The loader *)

Section Loader.

Lemma has_column_In (raw : Pd.RawFrame) (col : string) :
  has_column raw col = true <-> In col (Pd.columns raw).
Proof.
  unfold has_column. rewrite existsb_exists. split.
  - intros [c [Hin Heq]]. apply String.eqb_eq in Heq. subst c. exact Hin.
  - intros Hin. exists col. split; [exact Hin | apply String.eqb_refl].
Qed.

(** The column loop stops at the first name that is not in the header. *)
Lemma column_loop (raw : Pd.RawFrame) (names : list string) (page : list St.element) :
  St.for_each names (fun col =>
      if negb (has_column raw col)
      then St.emit (St.error (missing_column_message col)) ;; St.stop
      else St.ret tt) page =
  match find (fun col => negb (has_column raw col)) names with
  | Some col => (St.Stopped, page ++ [St.error (missing_column_message col)])
  | None => (St.Done tt, page)
  end.
Proof.
  induction names as [|col names IH]; cbn [St.for_each find].
  - reflexivity.
  - unfold St.bind at 1.
    destruct (negb (has_column raw col)).
    + reflexivity.
    + cbn [St.ret]. exact IH.
Qed.

Lemma load_data_missing (page : list St.element) :
  load_data Missing page = (St.Stopped, page ++ [St.error file_not_found_message]).
Proof. reflexivity. Qed.

Lemma load_data_holds (raw : Pd.RawFrame) (page : list St.element) :
  load_data (Holds raw) page =
  match first_missing raw with
  | Some col => (St.Stopped, page ++ [St.error (missing_column_message col)])
  | None =>
      match convert_records (Pd.columns raw) (Pd.records raw) with
      | Py.Return df => (St.Done df, page)
      | Py.Raises e => (St.Died e, page)
      end
  end.
Proof.
  unfold load_data, first_missing.
  unfold St.bind at 1. cbn [St.ret].
  unfold St.bind at 1. rewrite column_loop.
  destruct (find _ expected_columns); [reflexivity | ].
  destruct (convert_records _ _); reflexivity.
Qed.

Lemma first_missing_some (raw : Pd.RawFrame) (col : string) :
  In col expected_columns -> ~ In col (Pd.columns raw) ->
  exists c, first_missing raw = Some c
            /\ In c expected_columns /\ ~ In c (Pd.columns raw).
Proof.
  intros Hexp Hnot. unfold first_missing.
  destruct (find _ expected_columns) as [c|] eqn:Hfind.
  - apply find_some in Hfind. destruct Hfind as [Hin Hneg].
    exists c. repeat split; [exact Hin | ].
    intros Hc. apply has_column_In in Hc. rewrite Hc in Hneg. discriminate.
  - exfalso. pose proof (find_none _ _ Hfind col Hexp) as Hneg.
    cbn beta in Hneg. apply negb_false_iff in Hneg.
    apply Hnot, has_column_In, Hneg.
Qed.


(** What [load_data] hands back is the conversion of the file's records. *)
Lemma load_data_done (raw : Pd.RawFrame) (df : DataFrame) :
  loads raw df ->
  first_missing raw = None
  /\ convert_records (Pd.columns raw) (Pd.records raw) = Py.Return df.
Proof.
  unfold loads. rewrite load_data_holds.
  destruct (first_missing raw); [discriminate | ].
  destruct (convert_records _ _); cbn [fst]; [ | discriminate].
  intros [= <-]. auto.
Qed.


End Loader.

(** ** What a render cycle puts on the page *)

Section Runs.

(** A cycle on a frame with at least one row: it dies in [comb] with the
    first two sliders up, or puts up the pair slider and ends one of the
    three ways. *)
Lemma dashboard_run (df : DataFrame) (s : Sliders) (page : list St.element)
      (items_min items_max pairs_min pairs_max : Z) :
  Pd.min_int (map Num_Items df) = Some items_min ->
  Pd.max_int (map Num_Items df) = Some items_max ->
  Pd.min_int (map Num_Pairs df) = Some pairs_min ->
  Pd.max_int (map Num_Pairs df) = Some pairs_max ->
  dashboard df s page =
    match Py.comb (items_held s) 2 with
    | Py.Raises e => (St.Died e, page ++ controls df items_min items_max)
    | Py.Return max_possible_pairs =>
        (fst (after_sliders df s max_possible_pairs),
         page ++ controls df items_min items_max
              ++ [St.sidebar_slider_int pairs_label
                    pairs_min (Z.min pairs_max max_possible_pairs) pairs_min 100]
              ++ snd (after_sliders df s max_possible_pairs))
    end.
Proof.
  intros Himin Himax Hpmin Hpmax.
  unfold dashboard, after_sliders, St.slider_float, St.slider_int, St.bind, St.emit, St.ret.
  rewrite Himin, Himax.
  destruct (Py.comb (items_held s) 2) as [max_possible_pairs | e].
  - rewrite Hpmin, Hpmax.
    cbn [St.call St.ret py_min option_map].
    destruct (pairs_held s >? max_possible_pairs).
    + cbn [fst snd St.stop]. unfold controls. rewrite <- !app_assoc. reflexivity.
    + destruct (filtered_df0 df (noise_held s) (items_held s) (pairs_held s)) eqn:Hsel.
      * cbn [fst snd St.stop]. unfold controls. rewrite <- !app_assoc. reflexivity.
      * cbn [fst snd]. unfold controls, rendering. rewrite <- !app_assoc. reflexivity.
  - cbn [St.call St.raise]. unfold controls. rewrite <- !app_assoc. reflexivity.
Qed.

(** On an empty frame the item slider is handed NaN bounds and the run dies. *)
Lemma dashboard_empty (s : Sliders) (page : list St.element) :
  dashboard [] s page
  = (St.Died Py.StreamlitAPIException,
     page ++ [ St.sidebar_header "🔧 Filter Parameters";
               St.sidebar_slider_float "📊 Select Noise Level:" nan nan nan 0.01%float ]).
Proof.
  unfold dashboard, St.slider_float, St.slider_int, St.bind, St.emit, St.ret.
  cbn [map Pd.min_int Pd.max_int Pd.min_float Pd.max_float fold_left St.raise].
  rewrite <- !app_assoc. reflexivity.
Qed.

(** The bounds of the two int sliders exist as soon as the frame has a row. *)
Lemma bounds_exist (df : DataFrame) :
  df <> [] ->
  exists items_min items_max pairs_min pairs_max,
    Pd.min_int (map Num_Items df) = Some items_min
    /\ Pd.max_int (map Num_Items df) = Some items_max
    /\ Pd.min_int (map Num_Pairs df) = Some pairs_min
    /\ Pd.max_int (map Num_Pairs df) = Some pairs_max.
Proof.
  intros Hdf.
  destruct (min_int_some _ (column_nonempty Num_Items df Hdf)) as [a Ha].
  destruct (max_int_some _ (column_nonempty Num_Items df Hdf)) as [b Hb].
  destruct (min_int_some _ (column_nonempty Num_Pairs df Hdf)) as [c Hc].
  destruct (max_int_some _ (column_nonempty Num_Pairs df Hdf)) as [d Hd].
  exists a, b, c, d. auto.
Qed.

(** The validation passes exactly when the held pair count is within the bound. *)
Lemma after_sliders_valid (df : DataFrame) (s : Sliders) (max_possible_pairs : Z) :
  pairs_held s <= max_possible_pairs ->
  after_sliders df s max_possible_pairs =
  match filtered_df0 df (noise_held s) (items_held s) (pairs_held s) with
  | [] => (St.Stopped, [St.warning no_data_message])
  | _ :: _ => (St.Done tt, rendering df s)
  end.
Proof.
  intros Hle. unfold after_sliders.
  replace (pairs_held s >? max_possible_pairs) with false; [reflexivity | ].
  symmetry. rewrite Z.gtb_ltb. apply Z.ltb_ge. exact Hle.
Qed.



(** What a cycle emits does not depend on the page it starts from. *)
Lemma dashboard_frame (df : DataFrame) (s : Sliders) (page : list St.element) :
  dashboard df s page
  = (fst (dashboard df s []), page ++ snd (dashboard df s [])).
Proof.
  destruct df as [|r0 df'].
  - rewrite !dashboard_empty. reflexivity.
  - remember (r0 :: df') as df eqn:Edf.
    assert (Hdf : df <> []) by (subst df; discriminate).
    destruct (bounds_exist df Hdf) as [a [b [c [d [Ha [Hb [Hc Hd]]]]]]].
    rewrite !(dashboard_run df s _ a b c d Ha Hb Hc Hd).
    destruct (Py.comb (items_held s) 2); reflexivity.
Qed.

(** A run whose file loads is the title followed by a cycle on the frame. *)
Lemma run_loaded (raw : Pd.RawFrame) (df : DataFrame) (s : Sliders) :
  loads raw df ->
  run (Holds raw) s
  = (fst (dashboard df s []), St.title page_title :: snd (dashboard df s [])).
Proof.
  intros Hload. apply load_data_done in Hload. destruct Hload as [Hcols Hconv].
  unfold run, script.
  unfold St.bind at 1. cbn [St.emit app].
  unfold St.bind at 1. rewrite load_data_holds, Hcols, Hconv.
  rewrite dashboard_frame. reflexivity.
Qed.

(** Apart from the title, what such a run shows is what the cycle shows. *)
Lemma in_run (raw : Pd.RawFrame) (df : DataFrame) (s : Sliders) (e : St.element) :
  loads raw df ->
  In e (snd (run (Holds raw) s)) <->
  e = St.title page_title \/ In e (snd (dashboard df s [])).
Proof.
  intros Hload. rewrite (run_loaded raw df s Hload). cbn [snd In].
  split; intros [H | H]; auto.
Qed.

End Runs.

(** ** The row filter *)

Section Selection.

Variables (noise_value : float) (items_value pairs_value : Z).

(** The mask of lines 95-99 at one row. *)
Lemma filtered_df0_In (df : DataFrame) (r : Row) :
  In r (filtered_df0 df noise_value items_value pairs_value)
  <-> In r df
      /\ PrimFloat.eqb (Noise_Level r) noise_value = true
      /\ Num_Items r = items_value
      /\ Num_Pairs r = pairs_value.
Proof.
  unfold filtered_df0. rewrite filter_In, !andb_true_iff, !Z.eqb_eq. tauto.
Qed.

(** Two masks applied in turn are one mask. *)
Lemma filter_twice {A} (p q : A -> bool) (l : list A) :
  filter q (filter p l) = filter (fun a => p a && q a) l.
Proof.
  induction l as [|a l IH]; [reflexivity | ].
  cbn [filter]. destruct (p a); cbn [filter andb].
  - rewrite IH. reflexivity.
  - exact IH.
Qed.

Lemma filtered_df_one_mask (df : DataFrame) :
  filtered_df df noise_value items_value pairs_value
  = filter (fun r => PrimFloat.eqb (Noise_Level r) noise_value
                     && (Num_Items r =? items_value)
                     && (Num_Pairs r =? pairs_value)
                     && (Top_n r <=? Num_Items r)) df.
Proof.
  unfold filtered_df, filtered_df0. rewrite filter_twice.
  apply filter_ext. intros r.
  destruct (Z.eqb_spec (Num_Items r) items_value) as [-> | _].
  - reflexivity.
  - rewrite andb_false_r. reflexivity.
Qed.

End Selection.

(** ** Reading a page back *)

Section Shown.

(** The table a cycle shows, when it shows one, is [filtered_df] at what
    the sliders hold. *)
Lemma table_shown (df : DataFrame) (s : Sliders) (label : string) (shown : DataFrame) :
  In (St.expander_write label shown) (snd (dashboard df s [])) ->
  shown = filtered_df df (noise_held s) (items_held s) (pairs_held s).
Proof.
  destruct df as [|r0 df'].
  - rewrite dashboard_empty. cbn. intuition discriminate.
  - remember (r0 :: df') as df eqn:Edf.
    assert (Hdf : df <> []) by (subst df; discriminate).
    destruct (bounds_exist df Hdf) as [a [b [c [d [Ha [Hb [Hc Hd]]]]]]].
    rewrite (dashboard_run df s [] a b c d Ha Hb Hc Hd).
    destruct (Py.comb (items_held s) 2) as [C | e]; cbn [snd app].
    + unfold after_sliders.
      destruct (pairs_held s >? C); [cbn; intuition discriminate | ].
      destruct (filtered_df0 df _ _ _); [cbn; intuition discriminate | ].
      cbn. intros H.
      repeat (destruct H as [H | H]; [try discriminate H | ]).
      * injection H as _ <-. reflexivity.
      * contradiction.
    + cbn. intuition discriminate.
Qed.

(** The chart a cycle shows, when it shows one, is [figure] of [filtered_df]
    at what the sliders hold. *)
Lemma chart_shown (df : DataFrame) (s : Sliders) (fig : Go.Figure) :
  In (St.plotly_chart fig) (snd (dashboard df s [])) ->
  fig = figure (filtered_df df (noise_held s) (items_held s) (pairs_held s))
               (noise_held s) (items_held s) (pairs_held s).
Proof.
  destruct df as [|r0 df'].
  - rewrite dashboard_empty. cbn. intuition discriminate.
  - remember (r0 :: df') as df eqn:Edf.
    assert (Hdf : df <> []) by (subst df; discriminate).
    destruct (bounds_exist df Hdf) as [a [b [c [d [Ha [Hb [Hc Hd]]]]]]].
    rewrite (dashboard_run df s [] a b c d Ha Hb Hc Hd).
    destruct (Py.comb (items_held s) 2) as [C | e]; cbn [snd app].
    + unfold after_sliders.
      destruct (pairs_held s >? C); [cbn; intuition discriminate | ].
      destruct (filtered_df0 df _ _ _); [cbn; intuition discriminate | ].
      cbn [snd rendering controls app In]. intros H.
      repeat (destruct H as [H | H]; [try discriminate H | ]).
      * injection H as <-. reflexivity.
      * contradiction.
    + cbn. intuition discriminate.
Qed.

(** Where the pair slider can sit on the page of a cycle. *)
Lemma pairs_slider_on_page (df : DataFrame) (s : Sliders) (lo hi v step : Z) :
  In (St.sidebar_slider_int pairs_label lo hi v step) (snd (dashboard df s [])) ->
  exists pairs_min pairs_max max_possible_pairs,
    Pd.min_int (map Num_Pairs df) = Some pairs_min
    /\ Pd.max_int (map Num_Pairs df) = Some pairs_max
    /\ Py.comb (items_held s) 2 = Py.Return max_possible_pairs
    /\ lo = pairs_min /\ hi = Z.min pairs_max max_possible_pairs
    /\ v = pairs_min /\ step = 100
    /\ forall e, In e (snd (dashboard df s [])) ->
         In e (snd (after_sliders df s max_possible_pairs))
         \/ (forall body, e <> St.sidebar_error body).
Proof.
  unfold pairs_label.
  destruct df as [|r0 df'].
  - rewrite dashboard_empty. cbn. intuition discriminate.
  - remember (r0 :: df') as df eqn:Edf.
    assert (Hdf : df <> []) by (subst df; discriminate).
    destruct (bounds_exist df Hdf) as [a [b [c [d [Ha [Hb [Hc Hd]]]]]]].
    rewrite (dashboard_run df s [] a b c d Ha Hb Hc Hd).
    destruct (Py.comb (items_held s) 2) as [C | e]; cbn [snd app].
    + intros Hin. exists c, d, C.
      assert (Hhere : lo = c /\ hi = Z.min d C /\ v = c /\ step = 100).
      { unfold controls, pairs_label in Hin. cbn [app In] in Hin.
        destruct Hin as [H | [H | [H | [H | H]]]]; try discriminate H.
        - injection H as <- <- <- <-. auto.
        - exfalso. unfold after_sliders in H.
          destruct (pairs_held s >? C); [cbn in H; intuition discriminate | ].
          destruct (filtered_df0 df _ _ _); cbn in H; intuition discriminate. }
      destruct Hhere as [-> [-> [-> ->]]].
      repeat split; try assumption; try reflexivity.
      intros e He. unfold controls in He. cbn [app In] in He.
      destruct He as [H | [H | [H | [H | H]]]]; try (right; intros body; subst e; discriminate).
      left; exact H.
    + unfold controls. cbn. intuition discriminate.
Qed.

(** The same three readings, on a whole run. *)
Lemma table_in_run (raw : Pd.RawFrame) (df : DataFrame) (s : Sliders)
      (label : string) (shown : DataFrame) :
  loads raw df ->
  In (St.expander_write label shown) (snd (run (Holds raw) s)) ->
  shown = filtered_df df (noise_held s) (items_held s) (pairs_held s).
Proof.
  intros Hload Hin. apply (in_run raw df s _ Hload) in Hin.
  destruct Hin as [H | H]; [discriminate H | ].
  exact (table_shown df s label shown H).
Qed.

Lemma chart_in_run (raw : Pd.RawFrame) (df : DataFrame) (s : Sliders) (fig : Go.Figure) :
  loads raw df ->
  In (St.plotly_chart fig) (snd (run (Holds raw) s)) ->
  fig = figure (filtered_df df (noise_held s) (items_held s) (pairs_held s))
               (noise_held s) (items_held s) (pairs_held s).
Proof.
  intros Hload Hin. apply (in_run raw df s _ Hload) in Hin.
  destruct Hin as [H | H]; [discriminate H | ].
  exact (chart_shown df s fig H).
Qed.

Lemma pairs_slider_in_run (raw : Pd.RawFrame) (df : DataFrame) (s : Sliders)
      (lo hi v step : Z) :
  loads raw df ->
  In (St.sidebar_slider_int pairs_label lo hi v step) (snd (run (Holds raw) s)) ->
  exists pairs_min pairs_max max_possible_pairs,
    Pd.min_int (map Num_Pairs df) = Some pairs_min
    /\ Pd.max_int (map Num_Pairs df) = Some pairs_max
    /\ Py.comb (items_held s) 2 = Py.Return max_possible_pairs
    /\ lo = pairs_min /\ hi = Z.min pairs_max max_possible_pairs
    /\ v = pairs_min /\ step = 100
    /\ forall e, In e (snd (run (Holds raw) s)) ->
         In e (snd (after_sliders df s max_possible_pairs))
         \/ (forall body, e <> St.sidebar_error body).
Proof.
  intros Hload Hin. apply (in_run raw df s _ Hload) in Hin.
  destruct Hin as [H | H]; [discriminate H | ].
  destruct (pairs_slider_on_page df s lo hi v step H)
    as [c [d [C [Hc [Hd [HC [Hlo [Hhi [Hv [Hstep Hpage]]]]]]]]]].
  exists c, d, C. repeat split; try assumption.
  intros e He. apply (in_run raw df s _ Hload) in He.
  destruct He as [-> | He]; [right; intros body; discriminate | ].
  exact (Hpage e He).
Qed.

End Shown.

(** ** Sorting by Top-n *)

Section Sorting.

Lemma insert_Top_n_perm (r : Row) (l : DataFrame) :
  Permutation (insert_Top_n r l) (r :: l).
Proof.
  induction l as [|h t IH]; cbn [insert_Top_n].
  - apply Permutation_refl.
  - destruct (Top_n r <=? Top_n h).
    + apply Permutation_refl.
    + apply perm_trans with (h :: r :: t).
      * apply perm_skip. exact IH.
      * apply perm_swap.
Qed.

Lemma sort_values_perm (l : DataFrame) : Permutation (sort_values_Top_n l) l.
Proof.
  induction l as [|h t IH]; cbn [sort_values_Top_n].
  - apply perm_nil.
  - apply perm_trans with (h :: sort_values_Top_n t).
    + apply insert_Top_n_perm.
    + apply perm_skip. exact IH.
Qed.

(** The head of a list after an insertion is the inserted row or the old head. *)
Lemma insert_Top_n_head (bound : Z) (r : Row) (l : DataFrame) :
  bound <= Top_n r ->
  HdRel Z.le bound (map Top_n l) ->
  HdRel Z.le bound (map Top_n (insert_Top_n r l)).
Proof.
  intros Hr Hl. destruct l as [|h t]; cbn [insert_Top_n map].
  - constructor. exact Hr.
  - destruct (Top_n r <=? Top_n h); cbn [map].
    + constructor. exact Hr.
    + inversion Hl; subst. constructor. assumption.
Qed.

Lemma insert_Top_n_sorted (r : Row) (l : DataFrame) :
  Sorted Z.le (map Top_n l) -> Sorted Z.le (map Top_n (insert_Top_n r l)).
Proof.
  induction l as [|h t IH]; cbn [insert_Top_n map]; intros Hs.
  - constructor; constructor.
  - destruct (Z.leb_spec (Top_n r) (Top_n h)) as [Hle | Hgt]; cbn [map].
    + constructor; [exact Hs | constructor; exact Hle].
    + inversion Hs as [| ? ? Ht Hhd]; subst.
      constructor.
      * apply IH. exact Ht.
      * apply insert_Top_n_head; [lia | exact Hhd].
Qed.

Lemma sort_values_sorted (l : DataFrame) :
  Sorted Z.le (map Top_n (sort_values_Top_n l)).
Proof.
  induction l as [|h t IH]; cbn [sort_values_Top_n map].
  - constructor.
  - apply insert_Top_n_sorted. exact IH.
Qed.

Lemma combine_columns {A B C} (f : A -> B) (g : A -> C) (l : list A) :
  combine (map f l) (map g l) = map (fun a => (f a, g a)) l.
Proof.
  induction l as [|a l IH]; cbn; [reflexivity | rewrite IH; reflexivity].
Qed.

End Sorting.

(** ** The traces of a figure *)

Section Traces.

(** The loop of lines 120-129 appends one trace per enumerated label. *)
Lemma add_traces (f : nat -> Pd.cell -> Go.Scatter) (l : list (nat * Pd.cell))
      (fig : Go.Figure) :
  Go.data (fold_left (fun fig '(idx, alg) => Go.add_trace fig (f idx alg)) l fig)
  = Go.data fig ++ map (fun '(idx, alg) => f idx alg) l.
Proof.
  revert fig. induction l as [|[idx alg] l IH]; intros fig; cbn [fold_left map].
  - rewrite app_nil_r. reflexivity.
  - rewrite IH. cbn [Go.add_trace Go.data]. rewrite <- app_assoc. reflexivity.
Qed.

Lemma figure_data (fdf : DataFrame) (noise_value : float) (items_value pairs_value : Z) :
  Go.data (figure fdf noise_value items_value pairs_value)
  = map (fun '(idx, alg) => trace Go.Dark24 fdf idx alg) (enumerate (algorithms fdf)).
Proof.
  unfold figure. cbn [Go.update_layout Go.data]. rewrite add_traces. reflexivity.
Qed.

Lemma enumerate_from_snd {A} (l : list A) (start : nat) :
  map snd (combine (seq start (List.length l)) l) = l.
Proof.
  revert start. induction l as [|a l IH]; intros start; cbn; [reflexivity | ].
  rewrite IH. reflexivity.
Qed.


End Traces.

(** ** The sample files load *)

Example three_rows_loads : loads three_rows_file three_rows.
Proof. vm_compute. reflexivity. Qed.

Example other_rows_loads : loads other_rows_file other_rows.
Proof. vm_compute. reflexivity. Qed.

Example clamped_rows_loads : loads clamped_file clamped_rows.
Proof. vm_compute. reflexivity. Qed.

(** The spec's example, end to end: the table holds the three rows, series
    "A" is [(5, 0.80); (10, 0.90)] and series "B" is [(5, 0.70)]. *)
Example three_rows_run :
  fst (run (Holds three_rows_file) spec_example) = St.Done tt
  /\ In (St.expander_write "📄 Show Data" three_rows)
        (snd (run (Holds three_rows_file) spec_example))
  /\ map (fun t => (Go.name t, combine (Go.x t) (Go.y t)))
         (Go.data (figure (filtered_df three_rows 0.1 500 1000) 0.1 500 1000))
     = [ (Pd.CStr "A", [(5, 0.8%float); (10, 0.9%float)]);
         (Pd.CStr "B", [(5, 0.7%float)]) ].
Proof.
  split; [vm_compute; reflexivity | split].
  - vm_compute. tauto.
  - vm_compute. reflexivity.
Qed.

(* ================================================================== *)
(** * The claims *)

(** C1.  For every dataset and every selection (noise_level, num_items,
    num_pairs), the filtered view holds exactly the rows of the dataset
    whose three fields equal the selection and whose top_n is at most
    num_items, no others: it is the dataset under that one mask (same rows,
    same order, same repetitions), and any table a run shows is it. *)
Theorem filtered_df_exactly (df : DataFrame) (noise_value : float)
        (items_value pairs_value : Z) :
  filtered_df df noise_value items_value pairs_value
  = filter (fun r => PrimFloat.eqb (Noise_Level r) noise_value
                     && (Num_Items r =? items_value)
                     && (Num_Pairs r =? pairs_value)
                     && (Top_n r <=? Num_Items r)) df
  /\ (forall r,
        In r (filtered_df df noise_value items_value pairs_value)
        <-> In r df
            /\ PrimFloat.eqb (Noise_Level r) noise_value = true
            /\ Num_Items r = items_value
            /\ Num_Pairs r = pairs_value
            /\ Top_n r <= Num_Items r)
  /\ (forall raw s label shown,
        loads raw df ->
        noise_held s = noise_value -> items_held s = items_value ->
        pairs_held s = pairs_value ->
        In (St.expander_write label shown) (snd (run (Holds raw) s)) ->
        shown = filtered_df df noise_value items_value pairs_value).
Proof.
  split; [apply filtered_df_one_mask | split].
  - intros r. rewrite filtered_df_one_mask, filter_In.
    rewrite !andb_true_iff, !Z.eqb_eq, Z.leb_le. tauto.
  - intros raw s label shown Hload <- <- <-. apply table_in_run. exact Hload.
Qed.

(** With a pair count within the bound, and no row under the mask of lines
    95-99, the run warns and stops. *)
Lemma no_match_warns (raw : Pd.RawFrame) (df : DataFrame) (s : Sliders) :
  loads raw df -> df <> [] -> 0 <= items_held s ->
  pairs_held s <= items_held s * (items_held s - 1) / 2 ->
  filtered_df0 df (noise_held s) (items_held s) (pairs_held s) = [] ->
  exists items_min items_max pairs_min pairs_max,
    run (Holds raw) s
    = (St.Stopped,
       St.title page_title
       :: controls df items_min items_max
       ++ [ St.sidebar_slider_int pairs_label pairs_min
              (Z.min pairs_max (items_held s * (items_held s - 1) / 2)) pairs_min 100;
            St.warning no_data_message ]).
Proof.
  intros Hload Hdf Hitems Hle Hnone.
  destruct (bounds_exist df Hdf) as [a [b [c [d [Ha [Hb [Hc Hd]]]]]]].
  exists a, b, c, d.
  rewrite (run_loaded raw df s Hload).
  rewrite (dashboard_run df s [] a b c d Ha Hb Hc Hd), (comb_2 _ Hitems).
  rewrite (after_sliders_valid df s _ Hle), Hnone. reflexivity.
Qed.

(** C2, at a dataset whose rows under the selection all have top_n >
    num_items, with the sliders at their defaults: the filtered view is
    empty, yet the run goes to its end and shows a chart with no trace and
    an empty table, and no warning.  (The check of lines 101-104 looks at
    the frame before line 107 filters it.) *)
Theorem empty_view_still_charted :
  exists df,
    loads top_n_above_items df
    /\ noise_held at_defaults = Pd.min_float (map Noise_Level df)
    /\ Pd.min_int (map Num_Items df) = Some (items_held at_defaults)
    /\ Pd.min_int (map Num_Pairs df) = Some (pairs_held at_defaults)
    /\ filtered_df df 0.1 500 1000 = []
    /\ fst (run (Holds top_n_above_items) at_defaults) = St.Done tt
    /\ In (St.plotly_chart (figure [] 0.1 500 1000))
          (snd (run (Holds top_n_above_items) at_defaults))
    /\ Go.data (figure [] 0.1 500 1000) = []
    /\ In (St.expander_write "📄 Show Data" [])
          (snd (run (Holds top_n_above_items) at_defaults))
    /\ (forall body,
          ~ In (St.warning body) (snd (run (Holds top_n_above_items) at_defaults))).
Proof.
  eexists. split; [vm_compute; reflexivity | ].
  split; [vm_compute; reflexivity | ].
  split; [vm_compute; reflexivity | ].
  split; [vm_compute; reflexivity | ].
  split; [vm_compute; reflexivity | ].
  split; [vm_compute; reflexivity | ].
  split; [vm_compute; tauto | ].
  split; [reflexivity | ].
  split; [vm_compute; tauto | ].
  intros body. vm_compute. intuition discriminate.
Qed.



(** The message of the spec's example, as text. *)
Example invalid_pairs_message_500 :
  Py.format (invalid_pairs_message 500 124750)
  = Some "Number of Pairs cannot exceed C(500, 2) = 124750.".
Proof. reflexivity. Qed.

(** C4.  The bound the script computes, [comb(n, 2)], is the reference
    C(n,2): for every integer n >= 0 it equals n*(n-1)/2 when n >= 2, and
    it is 0 when n < 2. *)
Theorem comb_2_reference (n : Z) (Hn : 0 <= n) :
  (2 <= n -> Py.comb n 2 = Py.Return (n * (n - 1) / 2))
  /\ (n < 2 -> Py.comb n 2 = Py.Return 0).
Proof.
  split.
  - intros _. apply comb_2; exact Hn.
  - intros Hlt. rewrite (comb_2 n Hn).
    assert (Hcases : n = 0 \/ n = 1) by lia.
    destruct Hcases as [-> | ->]; reflexivity.
Qed.

(** The bound of the spec's example, C(500,2) = 124750, and the small cases. *)
Example comb_values :
  Py.comb 0 2 = Py.Return 0 /\ Py.comb 1 2 = Py.Return 0
  /\ Py.comb 2 2 = Py.Return 1 /\ Py.comb 500 2 = Py.Return 124750.
Proof. repeat split; vm_compute; reflexivity. Qed.

Lemma comb_2_reference_witness :
  (2 <= 500 -> Py.comb 500 2 = Py.Return (500 * (500 - 1) / 2))
  /\ (500 < 2 -> Py.comb 500 2 = Py.Return 0).
Proof. apply (comb_2_reference 500). lia. Defined.



(** The held value itself enters the mask as the slider hands it back: the
    script does not round it.  A held value that is not the double of a
    two-decimal numeral (here 0.1 + 0.02, one unit in the last place above
    0.12) matches no row, although it rounds to 0.12 as the row does. *)
Example unrounded_selection_matches_nothing :
  Np.round2 (PrimFloat.add 0.1 0.02) = Np.round2 0.1234
  /\ filtered_df0 [ {| Noise_Level := Np.round2 0.1234; Num_Items := 500;
                       Num_Pairs := 1000; Algorithm := Pd.CStr "A";
                       Top_n := 5; Accuracy := 0.8 |} ]
                  (PrimFloat.add 0.1 0.02) 500 1000
     = [].
Proof. split; vm_compute; reflexivity. Qed.

(** C6.  In every chart a run shows there is one series per algorithm of
    the filtered view, in the order of [algorithms]; each series lists the
    (top_n, accuracy) points of that algorithm's rows, and lists them in
    non-decreasing order of top_n. *)
Theorem series_ascending_Top_n (raw : Pd.RawFrame) (df : DataFrame) (s : Sliders)
        (fig : Go.Figure)
        (Hload : loads raw df)
        (Hshown : In (St.plotly_chart fig) (snd (run (Holds raw) s))) :
  map Go.name (Go.data fig)
  = algorithms (filtered_df df (noise_held s) (items_held s) (pairs_held s))
  /\ Forall (fun t =>
               Sorted Z.le (Go.x t)
               /\ Permutation
                    (combine (Go.x t) (Go.y t))
                    (map (fun r => (Top_n r, Accuracy r))
                         (filter (fun r => Pd.cell_eqb (Algorithm r) (Go.name t))
                                 (filtered_df df (noise_held s) (items_held s)
                                              (pairs_held s)))))
            (Go.data fig).
Proof.
  rewrite (chart_in_run raw df s fig Hload Hshown), figure_data.
  set (view := filtered_df df (noise_held s) (items_held s) (pairs_held s)).
  split.
  - rewrite map_map.
    rewrite <- (enumerate_from_snd (algorithms view) 0) at 2.
    apply map_ext. intros [idx alg]. reflexivity.
  - apply Forall_forall. intros t Ht.
    apply in_map_iff in Ht. destruct Ht as [[idx alg] [<- _]].
    cbn [trace Go.x Go.y Go.name]. split.
    + apply sort_values_sorted.
    + rewrite combine_columns. apply Permutation_map.
      unfold alg_data. apply sort_values_perm.
Qed.

Lemma series_ascending_Top_n_witness :
  map Go.name (Go.data (figure three_rows 0.1 500 1000))
  = algorithms (filtered_df three_rows (noise_held spec_example)
                            (items_held spec_example) (pairs_held spec_example))
  /\ Forall (fun t =>
               Sorted Z.le (Go.x t)
               /\ Permutation
                    (combine (Go.x t) (Go.y t))
                    (map (fun r => (Top_n r, Accuracy r))
                         (filter (fun r => Pd.cell_eqb (Algorithm r) (Go.name t))
                                 (filtered_df three_rows (noise_held spec_example)
                                              (items_held spec_example)
                                              (pairs_held spec_example)))))
            (Go.data (figure three_rows 0.1 500 1000)).
Proof.
  apply (series_ascending_Top_n three_rows_file three_rows spec_example
                                (figure three_rows 0.1 500 1000)).
  - vm_compute. reflexivity.
  - vm_compute. tauto.
Defined.



(** At 4 items the slider of the sample runs from 3 to 6 = C(4,2), below
    the column's largest pair count, 10. *)
Example clamped_slider :
  In (St.sidebar_slider_int pairs_label 3 6 3 100)
     (snd (run (Holds clamped_file) four_items)).
Proof. vm_compute. tauto. Qed.

(** C8.  The loader fails terminally when the CSV file cannot be located
    and when one of the six required columns (Noise Level, Num_Items,
    Num_Pairs, Algorithm, Top-n, Accuracy) is absent: the run is stopped
    and the page holds the title and the error message, nothing else (no
    sidebar, no chart, no table).  The message is the not-found message in
    the first case and names a missing required column in the second. *)
Theorem load_data_fails_terminally (file : csv_file) (s : Sliders)
  (Hbad : file = Missing
          \/ exists raw col,
               file = Holds raw
               /\ In col ["Noise Level"; "Num_Items"; "Num_Pairs";
                          "Algorithm"; "Top-n"; "Accuracy"]
               /\ ~ In col (Pd.columns raw)) :
  exists message,
    run file s = (St.Stopped, [St.title page_title; St.error message])
    /\ (file = Missing -> message = file_not_found_message)
    /\ (forall raw, file = Holds raw ->
          exists col, In col expected_columns
                      /\ ~ In col (Pd.columns raw)
                      /\ message = missing_column_message col).
Proof.
  destruct Hbad as [-> | [raw [col [-> [Hexp Hnot]]]]].
  - exists file_not_found_message. split; [reflexivity | split].
    + reflexivity.
    + discriminate.
  - destruct (first_missing_some raw col Hexp Hnot) as [c [Hfirst [Hc Hcnot]]].
    exists (missing_column_message c). split; [ | split].
    + unfold run, script. unfold St.bind at 1. cbn [St.emit app].
      unfold St.bind at 1. rewrite load_data_holds, Hfirst. reflexivity.
    + discriminate.
    + intros raw' [= <-]. exists c. auto.
Qed.

Lemma load_data_fails_terminally_witness :
  exists message,
    run (Holds frame_without_accuracy) spec_example
    = (St.Stopped, [St.title page_title; St.error message])
    /\ (Holds frame_without_accuracy = Missing -> message = file_not_found_message)
    /\ (forall raw, Holds frame_without_accuracy = Holds raw ->
          exists col, In col expected_columns
                      /\ ~ In col (Pd.columns raw)
                      /\ message = missing_column_message col).
Proof.
  apply (load_data_fails_terminally (Holds frame_without_accuracy) spec_example).
  right. exists frame_without_accuracy, "Accuracy". split; [reflexivity | split].
  - cbn. tauto.
  - cbn. intros H. repeat (destruct H as [H | H]; [discriminate H | ]). exact H.
Defined.

(** The two messages, on the missing file and on the file without an
    Accuracy column. *)
Example loader_messages :
  run Missing spec_example
  = (St.Stopped, [St.title page_title; St.error file_not_found_message])
  /\ run (Holds frame_without_accuracy) spec_example
     = (St.Stopped, [St.title page_title; St.error (missing_column_message "Accuracy")])
  /\ Py.format (missing_column_message "Accuracy")
     = Some "Missing expected column: 'Accuracy' in the CSV file.".
Proof. repeat split; vm_compute; reflexivity. Qed.



Example Dark24_size : List.length Go.Dark24 = 24%nat.
Proof. reflexivity. Qed.

(** The palette wraps: the 25th series is drawn in the first colour. *)
Example color_wraps : color_at Go.Dark24 24 = color_at Go.Dark24 0.
Proof. reflexivity. Qed.



(* ================================================================== *)
(** * Further properties of the script *)

(** ** How a run can end *)

Section RunCases.

(** A run on a file that is there: the column check, then the
    conversions, then the dashboard. *)
Lemma run_holds (raw : Pd.RawFrame) (s : Sliders) :
  run (Holds raw) s =
  match first_missing raw with
  | Some col => (St.Stopped, [St.title page_title; St.error (missing_column_message col)])
  | None =>
      match convert_records (Pd.columns raw) (Pd.records raw) with
      | Py.Return df =>
          (fst (dashboard df s []), St.title page_title :: snd (dashboard df s []))
      | Py.Raises e => (St.Died e, [St.title page_title])
      end
  end.
Proof.
  unfold run, script. unfold St.bind at 1. cbn [St.emit app].
  unfold St.bind at 1. rewrite load_data_holds.
  destruct (first_missing raw); [reflexivity | ].
  destruct (convert_records _ _); [ | reflexivity].
  rewrite dashboard_frame. reflexivity.
Qed.

(** The three shapes of a cycle. *)
Lemma dashboard_cases (df : DataFrame) (s : Sliders) :
  (exists e sidebar,
      dashboard df s [] = (St.Died e, sidebar)
      /\ forall el, In el sidebar -> is_alert el = false /\ is_result el = false)
  \/ (exists sidebar max_possible_pairs,
        df <> []
        /\ Py.comb (items_held s) 2 = Py.Return max_possible_pairs
        /\ dashboard df s []
           = (fst (after_sliders df s max_possible_pairs),
              sidebar ++ snd (after_sliders df s max_possible_pairs))
        /\ forall el, In el sidebar -> is_alert el = false /\ is_result el = false).
Proof.
  destruct df as [|r0 df'].
  - left. eexists _, _. split; [apply dashboard_empty | ].
    cbn. intros el [<- | [<- | []]]; auto.
  - remember (r0 :: df') as df eqn:Edf.
    assert (Hdf : df <> []) by (subst df; discriminate).
    destruct (bounds_exist df Hdf) as [a [b [c [d [Ha [Hb [Hc Hd]]]]]]].
    rewrite (dashboard_run df s [] a b c d Ha Hb Hc Hd).
    destruct (Py.comb (items_held s) 2) as [C | e].
    + right. exists (controls df a b ++ [St.sidebar_slider_int pairs_label c (Z.min d C) c 100]), C.
      split; [exact Hdf | split; [reflexivity | split]].
      * rewrite <- app_assoc. reflexivity.
      * unfold controls. cbn. intros el [<- | [<- | [<- | [<- | []]]]]; auto.
    + left. exists e, (controls df a b). split; [reflexivity | ].
      unfold controls. cbn. intros el [<- | [<- | [<- | []]]]; auto.
Qed.





(** The column loop finds the first name of the list that the header lacks. *)
Lemma find_first_missing (raw : Pd.RawFrame) (before after : list string) (col : string) :
  (forall c, In c before -> In c (Pd.columns raw)) ->
  ~ In col (Pd.columns raw) ->
  find (fun c => negb (has_column raw c)) (before ++ col :: after) = Some col.
Proof.
  intros Hbefore Hmissing. induction before as [|b before IH]; cbn [app find].
  - destruct (has_column raw col) eqn:Hcol; [ | reflexivity].
    exfalso. apply Hmissing, has_column_In, Hcol.
  - replace (has_column raw b) with true.
    + cbn [negb]. apply IH. intros c Hc. apply Hbefore. right. exact Hc.
    + symmetry. apply has_column_In, Hbefore. left. reflexivity.
Qed.


End RunCases.

(** X1.  When several required columns are absent, the one error shown
    names the first of them in the order of [expected_columns]. *)
Theorem first_missing_column_reported
        (raw : Pd.RawFrame) (s : Sliders) (before after : list string) (col : string)
        (Hsplit : expected_columns = before ++ col :: after)
        (Hbefore : forall c, In c before -> In c (Pd.columns raw))
        (Hmissing : ~ In col (Pd.columns raw)) :
  run (Holds raw) s
  = (St.Stopped, [St.title page_title; St.error (missing_column_message col)]).
Proof.
  rewrite run_holds. unfold first_missing. rewrite Hsplit.
  rewrite (find_first_missing raw before after col Hbefore Hmissing). reflexivity.
Qed.

Lemma first_missing_column_reported_witness :
  run (Holds frame_without_pairs_and_accuracy) spec_example
  = (St.Stopped, [St.title page_title; St.error (missing_column_message "Num_Pairs")]).
Proof.
  apply (first_missing_column_reported frame_without_pairs_and_accuracy spec_example
           ["Noise Level"; "Num_Items"] ["Algorithm"; "Top-n"; "Accuracy"] "Num_Pairs").
  - reflexivity.
  - cbn. intros c [<- | [<- | []]]; tauto.
  - cbn. intros H. repeat (destruct H as [H | H]; [discriminate H | ]). exact H.
Defined.





(** ** The shape of a page *)

Section PageShape.

(** Every run shows a quiet part (title, sidebar controls) and then ends
    one of three ways: stopped on one alert, dead with nothing more, or
    done with the full rendering. *)
Lemma run_shape (file : csv_file) (s : Sliders) :
  exists quiet rest,
    snd (run file s) = quiet ++ rest
    /\ (forall el, In el quiet -> is_alert el = false /\ is_result el = false)
    /\ ((fst (run file s) = St.Stopped /\ exists e, rest = [e] /\ is_alert e = true)
        \/ ((exists e, fst (run file s) = St.Died e) /\ rest = [])
        \/ (fst (run file s) = St.Done tt /\ exists df, rest = rendering df s)).
Proof.
  assert (Htitle : forall el, In el [St.title page_title] ->
                              is_alert el = false /\ is_result el = false).
  { intros el [<- | []]. auto. }
  destruct file as [ | | raw].
  - exists [St.title page_title], [St.error file_not_found_message].
    split; [reflexivity | split; [exact Htitle | ]].
    left. split; [reflexivity | eexists; split; reflexivity].
  - exists [St.title page_title], [].
    split; [reflexivity | split; [exact Htitle | ]].
    right. left. split; [eexists; reflexivity | reflexivity].
  - rewrite run_holds. destruct (first_missing raw) as [col | ].
    + exists [St.title page_title], [St.error (missing_column_message col)].
      split; [reflexivity | split; [exact Htitle | ]].
      left. split; [reflexivity | eexists; split; reflexivity].
    + destruct (convert_records _ _) as [df | e].
      * destruct (dashboard_cases df s)
          as [[e [sidebar [Hrun Hquiet]]] | [sidebar [C [_ [_ [Hrun Hquiet]]]]]];
          rewrite Hrun; cbn [fst snd].
        -- exists (St.title page_title :: sidebar), [].
           split; [rewrite app_nil_r; reflexivity | split].
           ++ intros el [<- | Hel]; [auto | apply Hquiet, Hel].
           ++ right. left. split; [eexists; reflexivity | reflexivity].
        -- exists (St.title page_title :: sidebar), (snd (after_sliders df s C)).
           split; [reflexivity | split].
           ++ intros el [<- | Hel]; [auto | apply Hquiet, Hel].
           ++ unfold after_sliders. destruct (pairs_held s >? C).
              ** left. split; [reflexivity | eexists; split; reflexivity].
              ** destruct (filtered_df0 df _ _ _).
                 --- left. split; [reflexivity | eexists; split; reflexivity].
                 --- right. right. split; [reflexivity | exists df; reflexivity].
      * exists [St.title page_title], [].
        split; [reflexivity | split; [exact Htitle | ]].
        right. left. split; [eexists; reflexivity | reflexivity].
Qed.

Lemma rendering_quiet (df : DataFrame) (s : Sliders) (el : St.element) :
  In el (rendering df s) -> is_alert el = false.
Proof.
  unfold rendering. cbn. intros H.
  repeat (destruct H as [<- | H]; [reflexivity | ]). destruct H.
Qed.

End PageShape.

(** X4.  A chart is shown only by a run that goes to its end with no error
    or warning anywhere on the page, and the table is shown with it. *)
Theorem chart_only_on_clean_run (file : csv_file) (s : Sliders) (fig : Go.Figure)
        (Hchart : In (St.plotly_chart fig) (snd (run file s))) :
  fst (run file s) = St.Done tt
  /\ (forall el, In el (snd (run file s)) -> is_alert el = false)
  /\ (exists label shown, In (St.expander_write label shown) (snd (run file s))).
Proof.
  destruct (run_shape file s) as [quiet [rest [Hpage [Hquiet Hend]]]].
  rewrite Hpage in Hchart |- *.
  apply in_app_or in Hchart. destruct Hchart as [Hq | Hr].
  { apply Hquiet in Hq. destruct Hq as [_ Hq]. discriminate Hq. }
  destruct Hend as [[_ [e [-> He]]] | [[_ ->] | [Hdone [df ->]]]].
  - destruct Hr as [-> | []]. discriminate He.
  - destruct Hr.
  - split; [exact Hdone | split].
    + intros el Hel. apply in_app_or in Hel. destruct Hel as [Hel | Hel].
      * apply Hquiet, Hel.
      * apply (rendering_quiet df s), Hel.
    + eexists _, _. apply in_or_app. right.
      unfold rendering. cbn [In]. do 5 right. left. reflexivity.
Qed.

Lemma chart_only_on_clean_run_witness :
  fst (run (Holds three_rows_file) spec_example) = St.Done tt
  /\ (forall el, In el (snd (run (Holds three_rows_file) spec_example)) ->
                 is_alert el = false)
  /\ (exists label shown,
        In (St.expander_write label shown) (snd (run (Holds three_rows_file) spec_example))).
Proof.
  apply (chart_only_on_clean_run (Holds three_rows_file) spec_example
                                 (figure three_rows 0.1 500 1000)).
  vm_compute. tauto.
Defined.

(** X5.  A run that [st.stop()] ends shows exactly one error or warning,
    as the last element of the page, and neither chart nor table. *)
Theorem stopped_run_ends_on_alert (file : csv_file) (s : Sliders)
        (Hstop : fst (run file s) = St.Stopped) :
  exists quiet e,
    snd (run file s) = quiet ++ [e]
    /\ is_alert e = true
    /\ forall el, In el quiet -> is_alert el = false /\ is_result el = false.
Proof.
  destruct (run_shape file s) as [quiet [rest [Hpage [Hquiet Hend]]]].
  destruct Hend as [[_ [e [-> He]]] | [[[e He] _] | [Hdone _]]].
  - exists quiet, e. auto.
  - rewrite He in Hstop. discriminate.
  - rewrite Hdone in Hstop. discriminate.
Qed.

Lemma stopped_run_ends_on_alert_witness :
  exists quiet e,
    snd (run (Holds three_rows_file) no_such_noise) = quiet ++ [e]
    /\ is_alert e = true
    /\ forall el, In el quiet -> is_alert el = false /\ is_result el = false.
Proof.
  apply (stopped_run_ends_on_alert (Holds three_rows_file) no_such_noise).
  vm_compute. reflexivity.
Defined.

(** X6.  A run that ends in an uncaught exception has put no error or
    warning of the script's own on the page, and neither chart nor table
    (what the framework displays for the exception is not the script's
    doing). *)
Theorem dead_run_is_silent (file : csv_file) (s : Sliders) (e : Py.exn)
        (Hdead : fst (run file s) = St.Died e) :
  Forall (fun el => is_alert el = false /\ is_result el = false) (snd (run file s)).
Proof.
  apply Forall_forall.
  destruct (run_shape file s) as [quiet [rest [Hpage [Hquiet Hend]]]].
  destruct Hend as [[Hstop _] | [[_ ->] | [Hdone _]]].
  - rewrite Hstop in Hdead. discriminate.
  - rewrite Hpage, app_nil_r. exact Hquiet.
  - rewrite Hdone in Hdead. discriminate.
Qed.

Lemma dead_run_is_silent_witness :
  Forall (fun el => is_alert el = false /\ is_result el = false)
         (snd (run (Holds text_in_items) spec_example)).
Proof.
  apply (dead_run_is_silent (Holds text_in_items) spec_example Py.ValueError).
  vm_compute. reflexivity.
Defined.

(** ** Which way a run ends *)

Section Endings.



(** C(n,2) grows with n. *)
Lemma pairs_bound_mono (n m : Z) :
  0 <= n <= m -> n * (n - 1) / 2 <= m * (m - 1) / 2.
Proof.
  intros H. apply Z.div_le_mono; [lia | ].
  destruct (Z.eq_dec n 0) as [-> | Hn].
  - destruct (Z.eq_dec m 0) as [-> | Hm]; [lia | ].
    apply Z.mul_nonneg_nonneg; lia.
  - apply Z.mul_le_mono_nonneg; lia.
Qed.

End Endings.



(** The selection of the sample that matches nothing does warn. *)
Example no_such_noise_warns :
  run (Holds three_rows_file) no_such_noise
  = (St.Stopped,
     St.title page_title
     :: controls three_rows 500 500
     ++ [St.sidebar_slider_int pairs_label 1000 1000 1000 100;
         St.warning no_data_message]).
Proof. vm_compute. reflexivity. Qed.

(** ** The pair slider at the edges *)





(** X10.  Moving the item slider up never lowers the pair slider's
    maximum, and leaves its minimum and default where they were. *)
Theorem pair_maximum_grows_with_items
        (raw : Pd.RawFrame) (df : DataFrame) (s1 s2 : Sliders)
        (lo1 hi1 v1 step1 lo2 hi2 v2 step2 : Z)
        (Hload : loads raw df)
        (Hitems : 0 <= items_held s1 <= items_held s2)
        (Hslider1 : In (St.sidebar_slider_int pairs_label lo1 hi1 v1 step1)
                       (snd (run (Holds raw) s1)))
        (Hslider2 : In (St.sidebar_slider_int pairs_label lo2 hi2 v2 step2)
                       (snd (run (Holds raw) s2))) :
  hi1 <= hi2 /\ lo1 = lo2 /\ v1 = v2.
Proof.
  destruct (pairs_slider_in_run raw df s1 lo1 hi1 v1 step1 Hload Hslider1)
    as [c1 [d1 [C1 [Hc1 [Hd1 [HC1 [-> [-> [-> _]]]]]]]]].
  destruct (pairs_slider_in_run raw df s2 lo2 hi2 v2 step2 Hload Hslider2)
    as [c2 [d2 [C2 [Hc2 [Hd2 [HC2 [-> [-> [-> _]]]]]]]]].
  rewrite Hc1 in Hc2. injection Hc2 as <-.
  rewrite Hd1 in Hd2. injection Hd2 as <-.
  rewrite (comb_2 (items_held s1)) in HC1 by lia. injection HC1 as <-.
  rewrite (comb_2 (items_held s2)) in HC2 by lia. injection HC2 as <-.
  pose proof (pairs_bound_mono _ _ Hitems). repeat split; lia.
Qed.

Lemma pair_maximum_grows_with_items_witness :
  6 <= 10 /\ 3 = 3 /\ 3 = 3.
Proof.
  apply (pair_maximum_grows_with_items clamped_file clamped_rows four_items five_items
           3 6 3 100 3 10 3 100).
  - vm_compute. reflexivity.
  - cbn. lia.
  - vm_compute. tauto.
  - vm_compute. tauto.
Defined.



(** ** What the chart holds *)

Section Labels.

Lemma same_key_refl (a : Pd.cell) : Pd.same_key a a = true.
Proof.
  destruct a as [i | f | t]; cbn.
  - apply Z.eqb_refl.
  - unfold Np.is_nan. destruct (PrimFloat.eqb f f); reflexivity.
  - apply String.eqb_refl.
Qed.

Lemma unique_In (l : list Pd.cell) (a : Pd.cell) : In a (Pd.unique l) -> In a l.
Proof.
  induction l as [|b l IH]; cbn [Pd.unique]; [auto | ].
  intros [<- | Hin]; [left; reflexivity | ].
  apply filter_In in Hin. right. apply IH. tauto.
Qed.

Lemma unique_NoDup (l : list Pd.cell) : NoDup (Pd.unique l).
Proof.
  induction l as [|b l IH]; cbn [Pd.unique]; constructor.
  - intros Hin. apply filter_In in Hin. destruct Hin as [_ Hneq].
    rewrite same_key_refl in Hneq. discriminate.
  - apply NoDup_filter. exact IH.
Qed.

(** On a plain label, [==] and the key of [unique] are plain equality. *)
Lemma plain_cell_eqb (a b : Pd.cell) :
  plain_label a = true -> (Pd.cell_eqb a b = true <-> a = b).
Proof.
  destruct a as [i | f | t]; [ | discriminate | ]; intros _;
    destruct b as [j | g | u]; cbn; try (split; discriminate).
  - rewrite Z.eqb_eq. split; [intros ->; reflexivity | intros [= ->]; reflexivity].
  - rewrite String.eqb_eq. split; [intros ->; reflexivity | intros [= ->]; reflexivity].
Qed.

Lemma plain_same_key (a b : Pd.cell) :
  plain_label a = true -> Pd.same_key b a = true -> b = a.
Proof.
  destruct a as [i | f | t]; [ | discriminate | ]; intros _;
    destruct b as [j | g | u]; cbn; try discriminate.
  - rewrite Z.eqb_eq. intros ->. reflexivity.
  - rewrite String.eqb_eq. intros ->. reflexivity.
Qed.

Lemma unique_keeps_plain (l : list Pd.cell) (a : Pd.cell) :
  plain_label a = true -> In a l -> In a (Pd.unique l).
Proof.
  intros Hplain. induction l as [|b l IH]; cbn [Pd.unique]; [auto | ].
  intros [-> | Hin]; [left; reflexivity | ].
  destruct (Pd.same_key b a) eqn:Hkey.
  - left. apply plain_same_key; assumption.
  - right. apply filter_In. split; [apply IH, Hin | rewrite Hkey; reflexivity].
Qed.

(** Sorting keeps the number of rows. *)
Lemma sort_values_length (l : DataFrame) :
  List.length (sort_values_Top_n l) = List.length l.
Proof. apply Permutation_length, sort_values_perm. Qed.

Lemma list_sum_plus {A} (f g : A -> nat) (l : list A) :
  list_sum (map (fun a => (f a + g a)%nat) l)
  = (list_sum (map f l) + list_sum (map g l))%nat.
Proof.
  unfold list_sum.
  induction l as [|a l IH]; cbn [map fold_right]; [reflexivity | rewrite IH; lia].
Qed.

(** In a list without repetition, one entry equals a given member. *)
Lemma one_hit (us : list Pd.cell) (a : Pd.cell) :
  plain_label a = true -> NoDup us -> In a us ->
  list_sum (map (fun u => if Pd.cell_eqb a u then 1%nat else 0%nat) us) = 1%nat.
Proof.
  intros Hplain Hnodup. unfold list_sum.
  induction Hnodup as [|u us Hnotin Hnodup IH]; [intros [] | ].
  assert (Hzero : ~ In a us ->
            fold_right Nat.add 0%nat
              (map (fun u => if Pd.cell_eqb a u then 1%nat else 0%nat) us) = 0%nat).
  { clear - Hplain. intros Hnot. induction us as [|v us IHus]; [reflexivity | ].
    cbn [map fold_right].
    destruct (Pd.cell_eqb a v) eqn:Hav.
    - exfalso. apply plain_cell_eqb in Hav; [ | exact Hplain].
      apply Hnot. left. symmetry. exact Hav.
    - rewrite IHus; [reflexivity | ]. intros H. apply Hnot. right. exact H. }
  intros [-> | Hin]; cbn [map fold_right].
  - replace (Pd.cell_eqb a a) with true by (symmetry; apply plain_cell_eqb; auto).
    rewrite Hzero; [reflexivity | exact Hnotin].
  - replace (Pd.cell_eqb a u) with false.
    + apply IH, Hin.
    + symmetry. destruct (Pd.cell_eqb a u) eqn:Hau; [ | reflexivity].
      apply plain_cell_eqb in Hau; [ | exact Hplain]. subst u. contradiction.
Qed.

End Labels.

Section Points.

(** The points of one trace are the rows of the view under its label. *)
Lemma trace_points (colors : list string) (fdf : DataFrame) (idx : nat) (alg : Pd.cell)
      (px : Z) (py : float) :
  In (px, py) (combine (Go.x (trace colors fdf idx alg)) (Go.y (trace colors fdf idx alg)))
  <-> exists r, In r fdf /\ Pd.cell_eqb (Algorithm r) alg = true
                /\ Top_n r = px /\ Accuracy r = py.
Proof.
  cbn [trace Go.x Go.y]. rewrite combine_columns, in_map_iff. unfold alg_data.
  split.
  - intros [r [[= <- <-] Hin]].
    apply (Permutation_in _ (sort_values_perm _)) in Hin.
    apply filter_In in Hin. exists r. tauto.
  - intros [r [Hin [Halg [<- <-]]]]. exists r. split; [reflexivity | ].
    apply (Permutation_in _ (Permutation_sym (sort_values_perm _))).
    apply filter_In. auto.
Qed.

Lemma trace_length (colors : list string) (fdf : DataFrame) (idx : nat) (alg : Pd.cell) :
  List.length (Go.x (trace colors fdf idx alg))
  = List.length (filter (fun r => Pd.cell_eqb (Algorithm r) alg) fdf).
Proof.
  cbn [trace Go.x]. rewrite length_map. unfold alg_data. apply sort_values_length.
Qed.

(** The traces of a figure, label by label. *)
Lemma figure_traces (fdf : DataFrame) (noise_value : float) (items_value pairs_value : Z)
      (t : Go.Scatter) :
  In t (Go.data (figure fdf noise_value items_value pairs_value)) ->
  exists idx alg, In alg (algorithms fdf) /\ t = trace Go.Dark24 fdf idx alg.
Proof.
  rewrite figure_data, in_map_iff. intros [[idx alg] [<- Hin]].
  exists idx, alg. split; [ | reflexivity].
  apply in_combine_r in Hin. exact Hin.
Qed.

Lemma figure_points (fdf : DataFrame) (noise_value : float) (items_value pairs_value : Z) :
  points (figure fdf noise_value items_value pairs_value)
  = list_sum (map (fun alg =>
                     List.length (filter (fun r => Pd.cell_eqb (Algorithm r) alg) fdf))
                  (algorithms fdf)).
Proof.
  unfold points. rewrite figure_data, map_map.
  rewrite <- (enumerate_from_snd (algorithms fdf) 0) at 2.
  rewrite map_map. f_equal. apply map_ext. intros [idx alg]. apply trace_length.
Qed.

(** Rows with plain labels are split among the entries of a list that
    names every label once. *)
Lemma rows_split_by_label (us : list Pd.cell) (l : DataFrame) :
  NoDup us ->
  (forall r, In r l -> plain_label (Algorithm r) = true /\ In (Algorithm r) us) ->
  list_sum (map (fun alg =>
                   List.length (filter (fun r => Pd.cell_eqb (Algorithm r) alg) l)) us)
  = List.length l.
Proof.
  intros Hnodup. induction l as [|r l IH]; intros Hall.
  - clear. induction us as [|u us IHus]; [reflexivity | exact IHus].
  - rewrite (map_ext _ (fun alg =>
               ((if Pd.cell_eqb (Algorithm r) alg then 1 else 0)
                + List.length (filter (fun r0 => Pd.cell_eqb (Algorithm r0) alg) l))%nat)).
    + rewrite list_sum_plus.
      destruct (Hall r (or_introl eq_refl)) as [Hplain Hin].
      rewrite (one_hit us _ Hplain Hnodup Hin).
      rewrite IH; [reflexivity | ]. intros r0 Hr0. apply Hall. right. exact Hr0.
    + intros alg. cbn [filter].
      destruct (Pd.cell_eqb (Algorithm r) alg); reflexivity.
Qed.

(** NaN equals nothing, on either side of [==]. *)
Lemma eqb_nan (f g : float) :
  Np.is_nan g = true -> PrimFloat.eqb f g = false /\ PrimFloat.eqb g f = false.
Proof.
  unfold Np.is_nan. rewrite !FloatAxioms.eqb_spec.
  destruct (Prim2SF g) as [sg | sg | | sg mg eg]; unfold SFeqb; cbn [SFcompare].
  - discriminate.
  - destruct sg; discriminate.
  - intros _. destruct (Prim2SF f); split; reflexivity.
  - rewrite Z.compare_refl, Pos.compare_cont_refl. destruct sg; discriminate.
Qed.

End Points.

(** X12.  Every point of a shown chart is the (Top-n, Accuracy) of a row
    of the dataset that carries the three held values, has the label of
    its series, and has Top-n at most the held item count: nothing else is
    ever plotted. *)
Theorem plotted_points_from_selection
        (raw : Pd.RawFrame) (df : DataFrame) (s : Sliders) (fig : Go.Figure)
        (t : Go.Scatter) (px : Z) (py : float)
        (Hload : loads raw df)
        (Hshown : In (St.plotly_chart fig) (snd (run (Holds raw) s)))
        (Ht : In t (Go.data fig))
        (Hpoint : In (px, py) (combine (Go.x t) (Go.y t))) :
  px <= items_held s
  /\ exists r, In r df /\ selected s r
               /\ Pd.cell_eqb (Algorithm r) (Go.name t) = true
               /\ Top_n r = px /\ Accuracy r = py.
Proof.
  rewrite (chart_in_run raw df s fig Hload Hshown) in Ht.
  apply figure_traces in Ht. destruct Ht as [idx [alg [_ ->]]].
  apply trace_points in Hpoint. destruct Hpoint as [r [Hin [Halg [Hx Hy]]]].
  unfold filtered_df in Hin. apply filter_In in Hin. destruct Hin as [Hin Htop].
  apply filtered_df0_In in Hin. apply Z.leb_le in Htop.
  split; [lia | ]. exists r. unfold selected. cbn [trace Go.name]. tauto.
Qed.

Lemma plotted_points_from_selection_witness :
  5 <= items_held spec_example
  /\ exists r, In r three_rows /\ selected spec_example r
               /\ Pd.cell_eqb (Algorithm r)
                    (Go.name (trace Go.Dark24 three_rows 1 (Pd.CStr "B"))) = true
               /\ Top_n r = 5 /\ Accuracy r = 0.7%float.
Proof.
  apply (plotted_points_from_selection three_rows_file three_rows spec_example
           (figure three_rows 0.1 500 1000)
           (trace Go.Dark24 three_rows 1 (Pd.CStr "B"))).
  - vm_compute. reflexivity.
  - vm_compute. tauto.
  - vm_compute. tauto.
  - vm_compute. tauto.
Defined.

(** X13.  In a shown chart no two series carry the same name, and every
    series is named after the label of some row of the dataset that
    carries the three held values with Top-n at most the held item count. *)
Theorem series_names_distinct
        (raw : Pd.RawFrame) (df : DataFrame) (s : Sliders) (fig : Go.Figure)
        (Hload : loads raw df)
        (Hshown : In (St.plotly_chart fig) (snd (run (Holds raw) s))) :
  NoDup (map Go.name (Go.data fig))
  /\ forall t, In t (Go.data fig) ->
       exists r, In r df /\ selected s r /\ Top_n r <= items_held s
                 /\ Algorithm r = Go.name t.
Proof.
  rewrite (chart_in_run raw df s fig Hload Hshown).
  set (view := filtered_df df (noise_held s) (items_held s) (pairs_held s)).
  split.
  - rewrite figure_data, map_map.
    rewrite (map_ext _ (fun p : nat * Pd.cell => snd p)) by (intros [idx alg]; reflexivity).
    unfold enumerate. rewrite enumerate_from_snd. apply unique_NoDup.
  - intros t Ht. apply figure_traces in Ht. destruct Ht as [idx [alg [Halg ->]]].
    apply unique_In, in_map_iff in Halg. destruct Halg as [r [Hr Hin]].
    unfold view, filtered_df in Hin. apply filter_In in Hin. destruct Hin as [Hin Htop].
    apply filtered_df0_In in Hin. apply Z.leb_le in Htop.
    exists r. unfold selected. cbn [trace Go.name]. tauto.
Qed.

Lemma series_names_distinct_witness :
  NoDup (map Go.name (Go.data (figure three_rows 0.1 500 1000)))
  /\ forall t, In t (Go.data (figure three_rows 0.1 500 1000)) ->
       exists r, In r three_rows /\ selected spec_example r
                 /\ Top_n r <= items_held spec_example
                 /\ Algorithm r = Go.name t.
Proof.
  apply (series_names_distinct three_rows_file three_rows spec_example
                               (figure three_rows 0.1 500 1000)).
  - vm_compute. reflexivity.
  - vm_compute. tauto.
Defined.

(** X14.  When the labels of the filtered view are text or integers, a
    shown chart plots every row of the view exactly once: the series
    together hold as many points as the view has rows, no series is
    empty, and each has as many x as y values. *)
Theorem every_row_plotted_once
        (raw : Pd.RawFrame) (df : DataFrame) (s : Sliders) (fig : Go.Figure)
        (Hload : loads raw df)
        (Hshown : In (St.plotly_chart fig) (snd (run (Holds raw) s)))
        (Hplain : forall r,
            In r (filtered_df df (noise_held s) (items_held s) (pairs_held s)) ->
            plain_label (Algorithm r) = true) :
  points fig
  = List.length (filtered_df df (noise_held s) (items_held s) (pairs_held s))
  /\ forall t, In t (Go.data fig) ->
       Go.x t <> [] /\ List.length (Go.x t) = List.length (Go.y t).
Proof.
  rewrite (chart_in_run raw df s fig Hload Hshown).
  set (view := filtered_df df (noise_held s) (items_held s) (pairs_held s)) in *.
  split.
  - rewrite figure_points. apply rows_split_by_label; [apply unique_NoDup | ].
    intros r Hr. split; [apply Hplain, Hr | ].
    apply unique_keeps_plain; [apply Hplain, Hr | apply in_map, Hr].
  - intros t Ht. apply figure_traces in Ht. destruct Ht as [idx [alg [Halg ->]]].
    split.
    + apply unique_In, in_map_iff in Halg. destruct Halg as [r [Hr Hin]].
      intros Hnil.
      assert (Hlen : List.length (Go.x (trace Go.Dark24 view idx alg)) = 0%nat)
        by (rewrite Hnil; reflexivity).
      rewrite trace_length in Hlen.
      assert (Hmem : In r (filter (fun r0 => Pd.cell_eqb (Algorithm r0) alg) view)).
      { apply filter_In. split; [exact Hin | ].
        apply plain_cell_eqb; [apply Hplain, Hin | exact Hr]. }
      destruct (filter _ view); [destruct Hmem | discriminate Hlen].
    + cbn [trace Go.x Go.y]. rewrite !length_map. reflexivity.
Qed.

Lemma every_row_plotted_once_witness :
  points (figure three_rows 0.1 500 1000)
  = List.length (filtered_df three_rows (noise_held spec_example)
                             (items_held spec_example) (pairs_held spec_example))
  /\ forall t, In t (Go.data (figure three_rows 0.1 500 1000)) ->
       Go.x t <> [] /\ List.length (Go.x t) = List.length (Go.y t).
Proof.
  apply (every_row_plotted_once three_rows_file three_rows spec_example
                                (figure three_rows 0.1 500 1000)).
  - vm_compute. reflexivity.
  - vm_compute. tauto.
  - intros r Hr. vm_compute in Hr.
    destruct Hr as [<- | [<- | [<- | []]]]; reflexivity.
Defined.

(** X15.  NaN selects nothing: a row under the mask of lines 95-99 has a
    noise level that is not NaN, and the value it was compared with is not
    NaN either.  So a row whose noise level is missing is in no filtered
    view, and a NaN held value leaves the view empty. *)
Theorem missing_noise_never_selected
        (df : DataFrame) (noise_value : float) (items_value pairs_value : Z) (r : Row)
        (Hin : In r (filtered_df0 df noise_value items_value pairs_value)) :
  Np.is_nan (Noise_Level r) = false /\ Np.is_nan noise_value = false.
Proof.
  apply filtered_df0_In in Hin. destruct Hin as [_ [Heq _]].
  split.
  - destruct (Np.is_nan (Noise_Level r)) eqn:Hnan; [ | reflexivity].
    destruct (eqb_nan noise_value _ Hnan) as [_ H]. rewrite H in Heq. discriminate.
  - destruct (Np.is_nan noise_value) eqn:Hnan; [ | reflexivity].
    destruct (eqb_nan (Noise_Level r) _ Hnan) as [H _]. rewrite H in Heq. discriminate.
Qed.

Lemma missing_noise_never_selected_witness :
  Np.is_nan (Noise_Level {| Noise_Level := 0.1; Num_Items := 500; Num_Pairs := 1000;
                            Algorithm := Pd.CStr "B"; Top_n := 7; Accuracy := 0.4 |})
  = false
  /\ Np.is_nan 0.1 = false.
Proof.
  apply (missing_noise_never_selected gaps_rows 0.1 500 1000).
  vm_compute. tauto.
Defined.

(** The row of the sample with the missing noise level is left out of the
    view that holds its two companions. *)
Example gaps_view :
  map Top_n (filtered_df0 gaps_rows 0.1 500 1000) = [5; 7]
  /\ map Algorithm (filtered_df0 gaps_rows 0.1 500 1000) = [Pd.CFloat nan; Pd.CStr "B"].
Proof. split; vm_compute; reflexivity. Qed.

(** X16.  In a shown chart a series whose name is NaN (the label of rows
    with a missing Algorithm cell) has no point: [==] finds no row for it,
    so such rows are plotted nowhere. *)
Theorem nan_series_is_empty
        (raw : Pd.RawFrame) (df : DataFrame) (s : Sliders) (fig : Go.Figure)
        (t : Go.Scatter) (f : float)
        (Hload : loads raw df)
        (Hshown : In (St.plotly_chart fig) (snd (run (Holds raw) s)))
        (Ht : In t (Go.data fig))
        (Hname : Go.name t = Pd.CFloat f)
        (Hnan : Np.is_nan f = true) :
  Go.x t = [] /\ Go.y t = [].
Proof.
  rewrite (chart_in_run raw df s fig Hload Hshown) in Ht.
  apply figure_traces in Ht. destruct Ht as [idx [alg [_ ->]]].
  cbn [trace Go.name] in Hname. subst alg.
  cbn [trace Go.x Go.y]. unfold alg_data.
  assert (Hnone : filter (fun r => Pd.cell_eqb (Algorithm r) (Pd.CFloat f))
                         (filtered_df df (noise_held s) (items_held s) (pairs_held s))
                  = []).
  { induction (filtered_df df (noise_held s) (items_held s) (pairs_held s))
      as [|r l IH]; [reflexivity | ].
    cbn [filter]. replace (Pd.cell_eqb (Algorithm r) (Pd.CFloat f)) with false; [exact IH | ].
    symmetry. destruct (Algorithm r) as [i | g | u]; cbn; try reflexivity.
    apply (eqb_nan g f Hnan). }
  rewrite Hnone. split; reflexivity.
Qed.

Lemma nan_series_is_empty_witness :
  Go.x (trace Go.Dark24 (filtered_df gaps_rows 0.1 500 1000) 0 (Pd.CFloat nan)) = []
  /\ Go.y (trace Go.Dark24 (filtered_df gaps_rows 0.1 500 1000) 0 (Pd.CFloat nan)) = [].
Proof.
  apply (nan_series_is_empty gaps_file gaps_rows spec_example
           (figure (filtered_df gaps_rows 0.1 500 1000) 0.1 500 1000)
           (trace Go.Dark24 (filtered_df gaps_rows 0.1 500 1000) 0 (Pd.CFloat nan))
           nan).
  - vm_compute. reflexivity.
  - vm_compute. tauto.
  - vm_compute. tauto.
  - reflexivity.
  - reflexivity.
Defined.
